(** * Doklah: reference matching and growth scoring (health.js)

    A shallow embedding of the pediatric growth-assessment engine of
    [health.js] (and of its later variant, which adds the z-score service),
    followed by the properties of the engine that the specification states.

    Conventions of the embedding.
    - A finite JavaScript number is an exact rational ([Q]); the non-finite
      values the code can produce or test for ([NaN], the infinities) are the
      extra constructors of [Js.Number].  Rounding error of IEEE doubles and
      the sign of zero are not modelled.
    - Fields of the reference records come from JSON and are finite, so they
      are plain [Q]; so are the measurements given to the resolvers, which the
      application only calls after [validateInput] has accepted the form.
    - The module-level caches [childData] and [zScoreData] are explicit
      arguments: [None] is the initial [null].
    - A [throw] is the [Throw] constructor of [Outcome]. *)

From Stdlib Require Import QArith Qabs Qround Lqa Lia ZArith Bool List String.
From Stdlib Require Import Sorted Permutation Ascii.
Import ListNotations.
Open Scope Q_scope.

(* ================================================================= *)
(** ** JavaScript numbers *)

(** [x < y] *)
Definition Qltb (x y : Q) : bool := negb (Qle_bool y x).

(** [Math.round] on a finite number: the nearest integer, halves going up. *)
Definition roundQ (x : Q) : Q := inject_Z (Qfloor (x + (1 # 2))).

Module Js.

Inductive Number := NaN | PosInf | NegInf | Fin (q : Q).

Definition neg (a : Number) : Number :=
  match a with
  | NaN => NaN
  | PosInf => NegInf
  | NegInf => PosInf
  | Fin x => Fin (- x)
  end.

Definition add (a b : Number) : Number :=
  match a, b with
  | NaN, _ | _, NaN => NaN
  | PosInf, NegInf | NegInf, PosInf => NaN
  | PosInf, _ | _, PosInf => PosInf
  | NegInf, _ | _, NegInf => NegInf
  | Fin x, Fin y => Fin (x + y)
  end.

Definition sub (a b : Number) : Number := add a (neg b).

(** The infinity that has the sign of [x] for [x] not zero; zero counts as
    positive. *)
Definition infOfSign (x : Q) : Number :=
  if Qltb x 0 then NegInf else PosInf.

Definition mul (a b : Number) : Number :=
  match a, b with
  | NaN, _ | _, NaN => NaN
  | Fin x, Fin y => Fin (x * y)
  | PosInf, PosInf | NegInf, NegInf => PosInf
  | PosInf, NegInf | NegInf, PosInf => NegInf
  | PosInf, Fin x | Fin x, PosInf =>
      if Qeq_bool x 0 then NaN else infOfSign x
  | NegInf, Fin x | Fin x, NegInf =>
      if Qeq_bool x 0 then NaN else neg (infOfSign x)
  end.

Definition div (a b : Number) : Number :=
  match a, b with
  | NaN, _ | _, NaN => NaN
  | Fin x, Fin y =>
      if Qeq_bool y 0
      then (if Qeq_bool x 0 then NaN else infOfSign x)
      else Fin (x / y)
  | Fin _, _ => Fin 0
  | PosInf, Fin y => infOfSign y
  | NegInf, Fin y => neg (infOfSign y)
  | _, _ => NaN
  end.

(** [Math.abs] *)
Definition abs (a : Number) : Number :=
  match a with
  | NaN => NaN
  | PosInf | NegInf => PosInf
  | Fin x => Fin (Qabs x)
  end.

(** [a <= b] *)
Definition leb (a b : Number) : bool :=
  match a, b with
  | NaN, _ | _, NaN => false
  | NegInf, _ | _, PosInf => true
  | PosInf, _ | _, NegInf => false
  | Fin x, Fin y => Qle_bool x y
  end.

(** [a < b] *)
Definition ltb (a b : Number) : bool :=
  match a, b with
  | NaN, _ | _, NaN => false
  | PosInf, _ | _, NegInf => false
  | NegInf, _ | _, PosInf => true
  | Fin x, Fin y => Qltb x y
  end.

(** [a === b] on numbers *)
Definition eqb (a b : Number) : bool :=
  match a, b with
  | PosInf, PosInf | NegInf, NegInf => true
  | Fin x, Fin y => Qeq_bool x y
  | _, _ => false
  end.

(** [Math.max(a, b)] *)
Definition max (a b : Number) : Number :=
  match a, b with
  | NaN, _ | _, NaN => NaN
  | _, _ => if ltb a b then b else a
  end.

(** [Math.round] *)
Definition round (a : Number) : Number :=
  match a with
  | Fin x => Fin (roundQ x)
  | _ => a
  end.

Definition isNaN (a : Number) : bool :=
  match a with NaN => true | _ => false end.

(** Truthiness of a number: every number but [NaN] and zero. *)
Definition truthy (a : Number) : bool :=
  match a with
  | NaN => false
  | Fin x => negb (Qeq_bool x 0)
  | _ => true
  end.

(** The values an optional numeric argument takes at the public interface:
    [null], [undefined], the empty string of an untouched form field, or a
    number. *)
Inductive NumericInput :=
| Null
| Undefined
| EmptyString
| Num (n : Number).

Definition truthyInput (v : NumericInput) : bool :=
  match v with
  | Num n => truthy n
  | _ => false
  end.

(** [ToNumber] on those values. *)
Definition toNumber (v : NumericInput) : Number :=
  match v with
  | Null => Fin 0
  | Undefined => NaN
  | EmptyString => Fin 0
  | Num n => n
  end.

(** [v || null] *)
Definition orNull (v : NumericInput) : NumericInput :=
  if truthyInput v then v else Null.

(** A default parameter [= null] replaces [undefined] only. *)
Definition defaultNull (v : NumericInput) : NumericInput :=
  match v with Undefined => Null | _ => v end.

(** Truthiness of a string that may be [null] or [undefined] ([None]). *)
Definition truthyString (s : option string) : bool :=
  match s with
  | None => false
  | Some s => negb (String.eqb s "")
  end.

Inductive Error :=
| MkError (message : string)
| TypeError.

End Js.

Inductive Outcome (A : Type) :=
| Return (a : A)
| Throw (e : Js.Error).
Arguments Return {A} a.
Arguments Throw {A} e.

(* ================================================================= *)
(** ** Data model *)

Module Rec.
(** One row of [data/child.json]. *)
Record t := mk {
  gender : string;
  age : Q;
  ageUnit : string;
  weight : Q;
  height : Q;
  ageType : string
}.
End Rec.

(** The property names that [findClosestInGroup] is called with. *)
Inductive Metric := MetricWeight | MetricHeight | MetricAge.

(** [record[metric]] *)
Definition getMetric (record : Rec.t) (metric : Metric) : Q :=
  match metric with
  | MetricWeight => Rec.weight record
  | MetricHeight => Rec.height record
  | MetricAge => Rec.age record
  end.

(* ================================================================= *)
(** ** Unit normaliser *)

Definition convertToMonths (age : Q) (unit : string) : Q :=
  if String.eqb unit "MONTH" then age else age * 12.

Definition calculateGrowthStage (age : Q) (unit : string) : string :=
  let months := convertToMonths age unit in
  if Qltb months 24 then "INFANT"%string
  else if Qle_bool 6 age then "ADOLESCENT"%string
  else "CHILD"%string.

Definition determineGrowthStage (age : Q) (ageUnit : string) : string :=
  let ageMonths := convertToMonths age ageUnit in
  if Qltb ageMonths 24 then "infant"%string
  else
    let ageYears := ageMonths / 12 in
    if Qltb ageYears 10 then "child"%string
    else "adolescent"%string.

(* ================================================================= *)
(** ** Record resolver *)

Definition monthsOf (record : Rec.t) : Q :=
  convertToMonths (Rec.age record) (Rec.ageUnit record).

(** [childData.filter((record) => record.gender === gender)] *)
Definition filterByGender (data : list Rec.t) (gender : string) : list Rec.t :=
  filter (fun record => String.eqb (Rec.gender record) gender) data.

(** The body of the [forEach] of [findMatchByAge]; the state is the pair of
    the mutable locals [closestByAge] and [minAgeDiff]. *)
Definition ageStep (inputAgeMonths : Q) (st : Rec.t * Q) (record : Rec.t)
  : Rec.t * Q :=
  let (closestByAge, minAgeDiff) := st in
  let recordAgeMonths := convertToMonths (Rec.age record) (Rec.ageUnit record) in
  let ageDiff := Qabs (recordAgeMonths - inputAgeMonths) in
  if Qltb ageDiff minAgeDiff then (record, ageDiff)
  else if Qeq_bool ageDiff minAgeDiff then
    if Qltb (convertToMonths (Rec.age closestByAge) (Rec.ageUnit closestByAge))
            recordAgeMonths
    then (record, minAgeDiff)
    else (closestByAge, minAgeDiff)
  else (closestByAge, minAgeDiff).

Definition notLoaded : Js.Error := Js.MkError "Child data not loaded".

Definition noDataFor (gender : string) : Js.Error :=
  Js.MkError (String.append "No data found for gender: " gender).

Definition findMatchByAge (childData : option (list Rec.t))
    (gender : string) (age : Q) (ageUnit : string) : Outcome Rec.t :=
  match childData with
  | None => Throw notLoaded
  | Some data =>
    if Nat.eqb (List.length data) 0 then Throw notLoaded
    else
      let candidates := filterByGender data gender in
      match candidates with
      | [] => Throw (noDataFor gender)
      | first :: _ =>
        let inputAgeMonths := convertToMonths age ageUnit in
        let start :=
          (first,
           Qabs (convertToMonths (Rec.age first) (Rec.ageUnit first)
                 - inputAgeMonths)) in
        Return (fst (fold_left (ageStep inputAgeMonths) candidates start))
      end
  end.

(** The body of the closest-by-weight [forEach], which
    [findMatchByWeightAndHeight] and [findClosestMatch] both contain; the
    state is the pair of [closestByWeight] and [minWeightDiff]. *)
Definition weightStep (weight : Q) (st : Rec.t * Q) (record : Rec.t)
  : Rec.t * Q :=
  let (closestByWeight, minWeightDiff) := st in
  let weightDiff := Qabs (Rec.weight record - weight) in
  if Qltb weightDiff minWeightDiff then (record, weightDiff)
  else if Qeq_bool weightDiff minWeightDiff then
    let currentMonths :=
      convertToMonths (Rec.age closestByWeight) (Rec.ageUnit closestByWeight) in
    let candidateMonths :=
      convertToMonths (Rec.age record) (Rec.ageUnit record) in
    if Qltb currentMonths candidateMonths
    then (record, minWeightDiff)
    else (closestByWeight, minWeightDiff)
  else (closestByWeight, minWeightDiff).

(** Lines "Find closest by weight" of both functions. *)
Definition closestByWeightOf (first : Rec.t) (candidates : list Rec.t)
    (weight : Q) : Rec.t :=
  fst (fold_left (weightStep weight) candidates
                 (first, Qabs (Rec.weight first - weight))).

(** [candidates.filter((record) =>
      Math.abs(record.weight - closestByWeight.weight) < 0.1)] *)
Definition weightGroupOf (candidates : list Rec.t) (closestByWeight : Rec.t)
  : list Rec.t :=
  filter (fun record =>
            Qltb (Qabs (Rec.weight record - Rec.weight closestByWeight))
                 (1 # 10))
         candidates.

(** The body of the [forEach] of [findClosestInGroup]; [unitMetric] is the
    truthiness of the fourth argument. *)
Definition groupStep (metric : Metric) (value : Q) (unitMetric : bool)
    (st : Rec.t * Q) (record : Rec.t) : Rec.t * Q :=
  let (closest, minDiff) := st in
  let diff := Qabs (getMetric record metric - value) in
  if Qltb diff minDiff then (record, diff)
  else if Qeq_bool diff minDiff && unitMetric then
    if Qltb (getMetric closest metric) (getMetric record metric)
    then (record, minDiff)
    else (closest, minDiff)
  else (closest, minDiff).

(** [unitMetric] is [null] ([None]) or a property name. *)
Definition findClosestInGroup (group : list Rec.t) (metric : Metric)
    (value : Q) (unitMetric : option string) : Outcome Rec.t :=
  match group with
  | [] => Throw Js.TypeError
  | first :: _ =>
    let start := (first, Qabs (getMetric first metric - value)) in
    Return (fst (fold_left
                   (groupStep metric value (Js.truthyString unitMetric))
                   group start))
  end.

(** [height] is [None] for [null] (also the default of the parameter). *)
Definition findMatchByWeightAndHeight (childData : option (list Rec.t))
    (gender : string) (weight : Q) (height : option Q) : Outcome Rec.t :=
  match childData with
  | None => Throw notLoaded
  | Some data =>
    if Nat.eqb (List.length data) 0 then Throw notLoaded
    else
      let candidates := filterByGender data gender in
      match candidates with
      | [] => Throw (noDataFor gender)
      | first :: _ =>
        let closestByWeight := closestByWeightOf first candidates weight in
        match height with
        | Some h =>
          let weightGroup := weightGroupOf candidates closestByWeight in
          if Nat.ltb 1 (List.length weightGroup)
          then findClosestInGroup weightGroup MetricHeight h None
          else Return closestByWeight
        | None => Return closestByWeight
        end
      end
  end.

Definition findClosestMatch (childData : option (list Rec.t))
    (gender : string) (weight : Q) (age : option Q) (height : option Q)
  : Outcome Rec.t :=
  match childData with
  | None => Throw notLoaded
  | Some data =>
    if Nat.eqb (List.length data) 0 then Throw notLoaded
    else
      let candidates := filterByGender data gender in
      match candidates with
      | [] => Throw (noDataFor gender)
      | first :: _ =>
        let closestByWeight := closestByWeightOf first candidates weight in
        match age, height with
        | None, None => Return closestByWeight
        | _, _ =>
          let weightGroup := weightGroupOf candidates closestByWeight in
          if Nat.ltb 1 (List.length weightGroup)
          then
            match age, height with
            | Some a, _ =>
              findClosestInGroup weightGroup MetricAge a (Some "ageUnit"%string)
            | None, Some h =>
              findClosestInGroup weightGroup MetricHeight h None
            | None, None => Return closestByWeight
            end
          else Return closestByWeight
        end
      end
  end.

(* ================================================================= *)
(** ** Closeness scorer *)

(** The [if ... else if] chain of [calculateCloseness] that maps the average
    deviation (in percent) to the local [closeness]. *)
Definition deviationToCloseness (averageDeviation : Js.Number) : Js.Number :=
  if Js.leb averageDeviation (Js.Fin 10) then Js.Fin 100
  else if Js.leb averageDeviation (Js.Fin 20) then
    Js.sub (Js.Fin 100) (Js.mul (Js.sub averageDeviation (Js.Fin 10)) (Js.Fin 1))
  else if Js.leb averageDeviation (Js.Fin 30) then
    Js.sub (Js.Fin 90)
           (Js.mul (Js.sub averageDeviation (Js.Fin 20)) (Js.Fin (3 # 2)))
  else if Js.leb averageDeviation (Js.Fin 40) then
    Js.sub (Js.Fin 75)
           (Js.mul (Js.sub averageDeviation (Js.Fin 30)) (Js.Fin (3 # 2)))
  else
    Js.sub (Js.Fin 60) (Js.sub averageDeviation (Js.Fin 40)).

(** The chain followed by the last line,
    [Math.round(Math.max(0, closeness))]: the score of a deviation. *)
Definition closenessScore (averageDeviation : Js.Number) : Js.Number :=
  Js.round (Js.max (Js.Fin 0) (deviationToCloseness averageDeviation)).

(** [(Math.abs(input - expected) / expected) * 100] *)
Definition deviationPercent (input expected : Js.Number) : Js.Number :=
  Js.mul (Js.div (Js.abs (Js.sub input expected)) expected) (Js.Fin 100).

Definition calculateCloseness (inputWeight : Js.Number)
    (inputHeight : Js.NumericInput) (ageMatchedRecord : option Rec.t)
  : Js.Number :=
  match ageMatchedRecord with
  | None => Js.Fin 0
  | Some record =>
    let expectedWeight := Js.Fin (Rec.weight record) in
    let expectedHeight := Js.Fin (Rec.height record) in
    let weightDeviation := deviationPercent inputWeight expectedWeight in
    let averageDeviation :=
      match inputHeight with
      | Js.Null | Js.Undefined => weightDeviation
      | _ =>
        let heightDeviation :=
          deviationPercent (Js.toNumber inputHeight) expectedHeight in
        Js.div (Js.add weightDeviation heightDeviation) (Js.Fin 2)
      end in
    closenessScore averageDeviation
  end.

Definition getClosenessLabel (closeness : Js.Number) : string :=
  if Js.leb (Js.Fin 90) closeness then "Excellent match"%string
  else if Js.leb (Js.Fin 75) closeness then "Very close"%string
  else if Js.leb (Js.Fin 60) closeness then "Close match"%string
  else if Js.leb (Js.Fin 40) closeness then "Moderate"%string
  else "Some difference"%string.

(* ================================================================= *)
(** ** Result formatting *)

(** [inputData.age]: the parsed ['value-unit'] choice of the form. *)
Record AgeInput := mkAgeInput {
  ageValue : Q;
  ageInputUnit : string
}.

Module Patient.
(** [inputData] *)
Record t := mk {
  gender : string;
  weight : Js.Number;
  height : Js.NumericInput;
  age : option AgeInput
}.
End Patient.

Module InputView.
(** The [input] member of the result. *)
Record t := mk {
  gender : string;
  weight : Js.Number;
  height : Js.NumericInput;
  age : option AgeInput
}.
End InputView.

Module MatchView.
(** The [ageMatched] and [weightMatched] members of the result. *)
Record t := mk {
  gender : string;
  weight : Q;
  height : Q;
  age : Q;
  ageUnit : string;
  ageType : string;
  ageLabel : string
}.
End MatchView.

Module Result.
Record t := mk {
  input : InputView.t;
  ageMatched : MatchView.t;
  weightMatched : MatchView.t;
  closeness : Js.Number;
  closenessLabel : string
}.
End Result.

Definition genderLabel (gender : string) : string :=
  if String.eqb gender "BOY" then "Boy"%string else "Girl"%string.

Section Formatting.

(** The conversion of a number to its decimal text, which the template
    literals of [formatAge] apply to [age]. *)
Variable numberToString : Q -> string.

Definition formatAge (age : Q) (unit : string) : string :=
  if String.eqb unit "MONTH" then
    if Qeq_bool age 0 then "Newborn"%string
    else String.append (numberToString age)
           (String.append " month"
              (if negb (Qeq_bool age 1) then "s" else ""))
  else String.append (numberToString age)
         (String.append " year"
            (if negb (Qeq_bool age 1) then "s" else "")).

Definition matchView (record : Rec.t) : MatchView.t :=
  MatchView.mk (genderLabel (Rec.gender record))
               (Rec.weight record) (Rec.height record)
               (Rec.age record) (Rec.ageUnit record) (Rec.ageType record)
               (formatAge (Rec.age record) (Rec.ageUnit record)).

(** Reading a property of a [null] record throws a [TypeError]. *)
Definition formatResult (inputData : Patient.t)
    (ageMatchedRecord weightMatchedRecord : option Rec.t) : Outcome Result.t :=
  let closeness :=
    calculateCloseness (Patient.weight inputData)
                       (Js.orNull (Patient.height inputData))
                       ageMatchedRecord in
  match ageMatchedRecord, weightMatchedRecord with
  | Some ageRecord, Some weightRecord =>
    Return
      (Result.mk
         (InputView.mk (genderLabel (Patient.gender inputData))
                       (Patient.weight inputData)
                       (Js.orNull (Patient.height inputData))
                       (Patient.age inputData))
         (matchView ageRecord)
         (matchView weightRecord)
         closeness
         (getClosenessLabel closeness))
  | _, _ => Throw Js.TypeError
  end.

End Formatting.

(* ================================================================= *)
(** ** Input validation *)

Definition msgGender : string := "Gender is required".
Definition msgWeightRequired : string := "Weight is required".
Definition msgWeightRange : string := "Weight must be between 0.01 and 150 kg".
Definition msgAge : string := "Age is required".
Definition msgHeightNumber : string := "Height must be a valid number".
Definition msgHeightRange : string := "Height must be between 0.01 and 220 cm".

(** [x < lo || x > hi], after [ToNumber] *)
Definition outside (v : Js.NumericInput) (lo hi : Q) : bool :=
  Js.ltb (Js.toNumber v) (Js.Fin lo) || Js.ltb (Js.Fin hi) (Js.toNumber v).

Definition genderErrors (gender : option string) : list string :=
  if negb (Js.truthyString gender) then [msgGender] else [].

Definition weightErrors (weight : Js.NumericInput) : list string :=
  if negb (Js.truthyInput weight) || Js.isNaN (Js.toNumber weight)
  then [msgWeightRequired]
  else if outside weight (1 # 100) 150 then [msgWeightRange]
  else [].

Definition ageErrors (age : option string) : list string :=
  if negb (Js.truthyString age) then [msgAge] else [].

Definition heightErrors (height : Js.NumericInput) : list string :=
  match height with
  | Js.Null | Js.EmptyString => []
  | _ =>
    if Js.isNaN (Js.toNumber height) then [msgHeightNumber]
    else if outside height (1 # 100) 220 then [msgHeightRange]
    else []
  end.

(** Each [if] statement pushes at most one message on [errors], in the
    order of the statements. *)
Definition validateInput (gender : option string) (weight : Js.NumericInput)
    (height : Js.NumericInput) (age : option string) : list string :=
  let height := Js.defaultNull height in
  (((([] ++ genderErrors gender) ++ weightErrors weight)
      ++ ageErrors age) ++ heightErrors height)%list.

(* ================================================================= *)
(** ** Z-score curve service *)

(** The five curve values of one metric, keyed by z = -2, -1, 0, 1, 2. *)
Record ZValues := mkZValues {
  zMinus2 : Q;
  zMinus1 : Q;
  zZero : Q;
  zPlus1 : Q;
  zPlus2 : Q
}.

Module ZEntry.
(** One entry of a partition of [data/z-score.json]; an absent property is
    [None]. *)
Record t := mk {
  age : Q;
  gender : string;
  weightZ : option ZValues;
  heightZ : option ZValues;
  bmiZ : option ZValues;
  medianHeight : option Q
}.
End ZEntry.

Record AgeRange := mkAgeRange {
  rangeMin : Q;
  rangeMax : Q;
  rangeUnit : string
}.

(** [zScoreData]: the three partitions and the strategy of each stage.  The
    adolescent partition is an array whose first element is the array of
    entries. *)
Record ZScoreData := mkZScoreData {
  infant : option (list ZEntry.t);
  child : option (list ZEntry.t);
  adolescent : option (list (list ZEntry.t));
  strategyInfant : option AgeRange;
  strategyChild : option AgeRange;
  strategyAdolescent : option AgeRange
}.

(** [zScoreData.strategy[growthStage]] *)
Definition strategyOf (z : ZScoreData) (growthStage : string)
  : option AgeRange :=
  if String.eqb growthStage "infant" then strategyInfant z
  else if String.eqb growthStage "child" then strategyChild z
  else if String.eqb growthStage "adolescent" then strategyAdolescent z
  else None.

(** [zScoreData[growthStage]], with the adolescent array replaced by its
    first element; [None] is [undefined]. *)
Definition dataSourceOf (z : ZScoreData) (growthStage : string)
  : option (list ZEntry.t) :=
  if String.eqb growthStage "adolescent" then
    match adolescent z with
    | Some (entries :: _) => Some entries
    | _ => None
    end
  else if String.eqb growthStage "infant" then infant z
  else if String.eqb growthStage "child" then child z
  else None.

(** The local [ageValue] of [getZScoreCurves]: the age the entries are
    compared with. *)
Definition ageValueOf (age : Q) (ageUnit : string) : Q :=
  if String.eqb ageUnit "MONTH" then age else roundQ age.

(** [dataSource.find(...)] of [getZScoreCurves] *)
Definition findEntry (dataSource : list ZEntry.t) (ageValue : Q)
    (gender : string) : option ZEntry.t :=
  find (fun record =>
          Qeq_bool (ZEntry.age record) ageValue
          && String.eqb (ZEntry.gender record) gender)
       dataSource.

(** [zScoreEntry[zScoreProp]] for the property name that the growth stage
    and the metric select; [None] when there is no such name or the entry
    lacks the property. *)
Definition curveOf (growthStage metric : string) (zScoreEntry : ZEntry.t)
  : option ZValues :=
  if String.eqb growthStage "adolescent" then ZEntry.bmiZ zScoreEntry
  else if String.eqb metric "weight" then ZEntry.weightZ zScoreEntry
  else if String.eqb metric "height" then ZEntry.heightZ zScoreEntry
  else None.

(** The empty object is [None]; calling [find] on a partition that is
    [undefined] throws a [TypeError]. *)
Definition getZScoreCurves (zScoreData : option ZScoreData)
    (gender : string) (age : Q) (ageUnit : string) (metric : string)
  : Outcome (option ZValues) :=
  match zScoreData with
  | None => Return None
  | Some z =>
    let growthStage := determineGrowthStage age ageUnit in
    match strategyOf z growthStage with
    | None => Return None
    | Some _ =>
      match dataSourceOf z growthStage with
      | None => Throw Js.TypeError
      | Some dataSource =>
        let ageValue := ageValueOf age ageUnit in
        match findEntry dataSource ageValue gender with
        | None => Return None
        | Some zScoreEntry =>
          Return (curveOf growthStage metric zScoreEntry)
        end
      end
    end
  end.

(** The sibling lookup, which serves the adolescent partition only. *)
Definition getMedianHeightForAge (zScoreData : option ZScoreData)
    (gender : string) (age : Q) (ageUnit : string) : option Q :=
  match zScoreData with
  | None => None
  | Some z =>
    match adolescent z with
    | Some (adolescentData :: _) =>
      let ageYears := if String.eqb ageUnit "MONTH" then age / 12 else age in
      match
        find (fun record =>
                Qeq_bool (ZEntry.age record) (roundQ ageYears)
                && String.eqb (ZEntry.gender record) gender)
             adolescentData
      with
      | Some entry => ZEntry.medianHeight entry
      | None => None
      end
    | _ => None
    end
  end.

(* ================================================================= *)
(** ** Vocabulary of the statements *)

(** The contract the three resolvers share: which error is thrown for which
    state of [childData], and that the call otherwise returns a candidate. *)
Definition resolverContract (childData : option (list Rec.t))
    (gender : string) (result : Outcome Rec.t) : Prop :=
  match childData with
  | None | Some [] => result = Throw notLoaded
  | Some data =>
    match filterByGender data gender with
    | [] => result = Throw (noDataFor gender)
    | candidates => exists r, result = Return r /\ In r candidates
    end
  end.

(** Of two candidates, the one [findMatchByAge] prefers on a tie. *)
Definition olderOf (a b : Rec.t) : Rec.t :=
  if Qltb (monthsOf a) (monthsOf b) then b else a.

(** A small dataset for the examples. *)
Definition boy4 : Rec.t := Rec.mk "BOY" 4 "MONTH" 6 60 "INFANT".
Definition boy5 : Rec.t := Rec.mk "BOY" 5 "MONTH" 6 70 "INFANT".
Definition girl6 : Rec.t := Rec.mk "GIRL" 6 "MONTH" (73 # 10) (657 # 10) "INFANT".
Definition boy8 : Rec.t := Rec.mk "BOY" 8 "MONTH" (86 # 10) (706 # 10) "INFANT".
Definition sampleData : list Rec.t := [boy4; girl6; boy5; boy8].


(** The piecewise-linear table of the closeness score: [e] is the value the
    table gives for the finite deviation [x]. *)
Definition closenessPiece (x e : Q) : Prop :=
  (x <= 10 /\ e == 100)
  \/ (10 < x /\ x <= 20 /\ e == 100 - (x - 10) * 1)
  \/ (20 < x /\ x <= 30 /\ e == 90 - (x - 20) * (3 # 2))
  \/ (30 < x /\ x <= 40 /\ e == 75 - (x - 30) * (3 # 2))
  \/ (40 < x /\ e == 60 - (x - 40)).

(** A required text argument is given: it is neither [null] nor empty. *)
Definition nonEmpty (s : option string) : Prop :=
  exists t, s = Some t /\ t <> ""%string.

(** The weight is a number between 0.01 and 150. *)
Definition validWeight (weight : Js.NumericInput) : Prop :=
  exists q, weight = Js.Num (Js.Fin q) /\ (1 # 100) <= q /\ q <= 150.

(** The height is not given ([null], [undefined] or empty) or is a number
    between 0.01 and 220. *)
Definition validHeight (height : Js.NumericInput) : Prop :=
  height = Js.Null \/ height = Js.Undefined \/ height = Js.EmptyString
  \/ exists q, height = Js.Num (Js.Fin q) /\ (1 # 100) <= q /\ q <= 220.



(** A small z-score dataset for the examples: one child entry, indexed in
    months, and one adolescent entry, indexed in years. *)
Definition weightCurve : ZValues :=
  mkZValues (113 # 10) (127 # 10) (143 # 10) (162 # 10) (183 # 10).
Definition bmiCurve : ZValues :=
  mkZValues (137 # 10) (149 # 10) (164 # 10) (185 # 10) (211 # 10).
Definition childEntry : ZEntry.t :=
  ZEntry.mk 36 "BOY" (Some weightCurve) None None None.
Definition adolescentEntry : ZEntry.t :=
  ZEntry.mk 10 "BOY" None None (Some bmiCurve) (Some (1377 # 10)).
Definition sampleZScoreData : ZScoreData :=
  mkZScoreData (Some []) (Some [childEntry]) (Some [[adolescentEntry]])
               (Some (mkAgeRange 0 23 "MONTH"))
               (Some (mkAgeRange 2 9 "YEAR"))
               (Some (mkAgeRange 10 19 "YEAR")).



(* ================================================================= *)
(** ** Age options and chart data *)

(** [Array.prototype.sort] with a comparator [cmp] whose sign orders the
    elements consistently.  For such a comparator the sort is specified to
    give the sorted arrangement in which elements that compare equal keep
    their order; this insertion sort computes it: an element is put before
    the first element that it does not follow. *)
Fixpoint insertSorted {A : Type} (cmp : A -> A -> Q) (x : A) (l : list A)
  : list A :=
  match l with
  | [] => [x]
  | y :: rest =>
    if Qltb 0 (cmp x y) then y :: insertSorted cmp x rest else x :: l
  end.

Definition arraySort {A : Type} (cmp : A -> A -> Q) (l : list A) : list A :=
  fold_right (insertSorted cmp) [] l.

Module AgeOption.
(** An element of the result of [getUniqueAges]. *)
Record t := mk {
  value : string;
  age : Q;
  unit : string;
  label : string
}.
End AgeOption.

Section UniqueAges.

(** The conversion of a number to its decimal text, as in [formatAge]. *)
Variable numberToString : Q -> string.

(** [`${record.age}-${record.ageUnit}`] *)
Definition ageKey (record : Rec.t) : string :=
  String.append (numberToString (Rec.age record))
                (String.append "-" (Rec.ageUnit record)).

(** [ageMap.has(key)]; the [Map] is the list of its entries in insertion
    order. *)
Definition mapHas (ageMap : list (string * AgeOption.t)) (key : string)
  : bool :=
  existsb (fun entry => String.eqb (fst entry) key) ageMap.

(** The body of the [forEach] of [getUniqueAges]. *)
Definition addAge (ageMap : list (string * AgeOption.t)) (record : Rec.t)
  : list (string * AgeOption.t) :=
  let key := ageKey record in
  if negb (mapHas ageMap key) then
    (ageMap
     ++ [(key,
          AgeOption.mk key (Rec.age record) (Rec.ageUnit record)
                       (formatAge numberToString (Rec.age record)
                                  (Rec.ageUnit record)))])%list
  else ageMap.

Definition getUniqueAges (childData : option (list Rec.t))
  : list AgeOption.t :=
  match childData with
  | None => []
  | Some data =>
    let ageMap := fold_left addAge data [] in
    arraySort
      (fun a b =>
         let aMonths := convertToMonths (AgeOption.age a) (AgeOption.unit a) in
         let bMonths := convertToMonths (AgeOption.age b) (AgeOption.unit b) in
         aMonths - bMonths)
      (map snd ageMap)
  end.

End UniqueAges.

Module ChartPoint.
(** [{ ...d, normalizedAge }] *)
Record t := mk {
  record : Rec.t;
  normalizedAge : Q
}.
End ChartPoint.

Definition getChartDataForGender (childData : option (list Rec.t))
    (gender : string) : list ChartPoint.t :=
  match childData with
  | None => []
  | Some data =>
    let filtered :=
      map (fun d =>
             let normalizedAge :=
               convertToMonths (Rec.age d) (Rec.ageUnit d) / 12 in
             ChartPoint.mk d normalizedAge)
          (filter (fun d => String.eqb (Rec.gender d) gender) data) in
    arraySort
      (fun a b => ChartPoint.normalizedAge a - ChartPoint.normalizedAge b)
      filtered
  end.

(** The age in months of an option of the age select. *)
Definition optionMonths (o : AgeOption.t) : Q :=
  convertToMonths (AgeOption.age o) (AgeOption.unit o).

(* ================================================================= *)
(** ** Translations (i18n.js) and z-score labels (app.js) *)

Module I18n.

(** A parsed JSON document.  Arrays are left out: the locale files are
    objects nested in objects, with texts at the leaves.  In the fields of
    an object a later duplicate of a key wins, as in [JSON.parse]. *)
#[local] Unset Elimination Schemes.
Inductive Json :=
| JNull
| JBool (b : bool)
| JNumber (n : Q)
| JString (s : string)
| JObject (fields : list (string * Json)).
#[local] Set Elimination Schemes.

(** The values that the walk of [t] can hold: a JSON value, or what the
    prototype of an object gives for an inherited name, namely a built-in
    function or, for [__proto__], the prototype itself. *)
Inductive Value :=
| VJson (j : Json)
| VFunction (name : string)
| VObjectPrototype.

(** The own property [k] of an object with these fields. *)
Fixpoint ownProperty (fields : list (string * Json)) (k : string)
  : option Json :=
  match fields with
  | [] => None
  | (name, j) :: rest =>
    match ownProperty rest k with
    | Some later => Some later
    | None => if String.eqb name k then Some j else None
    end
  end.

(** The property names of [Object.prototype]. *)
Definition objectPrototypeNames : list string :=
  [ "constructor"; "__defineGetter__"; "__defineSetter__"; "hasOwnProperty";
    "__lookupGetter__"; "__lookupSetter__"; "isPrototypeOf";
    "propertyIsEnumerable"; "toString"; "valueOf"; "__proto__";
    "toLocaleString" ]%string.

Definition inObjectPrototype (k : string) : bool :=
  existsb (String.eqb k) objectPrototypeNames.

(** [value && typeof value === "object" && k in value] *)
Definition hasProperty (value : Value) (k : string) : bool :=
  match value with
  | VJson (JObject fields) =>
    match ownProperty fields k with
    | Some _ => true
    | None => inObjectPrototype k
    end
  | VObjectPrototype => inObjectPrototype k
  | _ => false
  end.

(** [value[k]], for a [value] that has the property. *)
Definition getProperty (value : Value) (k : string) : Value :=
  match value with
  | VJson (JObject fields) =>
    match ownProperty fields k with
    | Some j => VJson j
    | None =>
      if String.eqb k "__proto__" then VObjectPrototype else VFunction k
    end
  | VObjectPrototype =>
    if String.eqb k "__proto__" then VJson JNull else VFunction k
  | _ => VJson JNull
  end.

Definition truthy (value : Value) : bool :=
  match value with
  | VJson JNull => false
  | VJson (JBool b) => b
  | VJson (JNumber n) => negb (Qeq_bool n 0)
  | VJson (JString s) => negb (String.eqb s "")
  | _ => true
  end.

(** [key.split(".")] *)
Fixpoint splitDot (key : string) : list string :=
  match key with
  | EmptyString => [EmptyString]
  | String c rest =>
    if Ascii.eqb c "."%char then EmptyString :: splitDot rest
    else
      match splitDot rest with
      | [] => [String c EmptyString]
      | first :: others => String c first :: others
      end
  end.

(** The inner loop of [t], over the fallback: [None] when it leaves by
    [return key]. *)
Fixpoint walkFallback (value : Value) (keys : list string) : option Value :=
  match keys with
  | [] => Some value
  | fk :: rest =>
    if hasProperty value fk then walkFallback (getProperty value fk) rest
    else None
  end.

(** The outer loop of [t] from the segment it has reached, and the
    [return value || key] after it. *)
Fixpoint walk (key : string) (keys : list string) (fallback : Value)
    (value : Value) (remaining : list string) : Value :=
  match remaining with
  | [] => if truthy value then value else VJson (JString key)
  | k :: rest =>
    if hasProperty value k
    then walk key keys fallback (getProperty value k) rest
    else
      match walkFallback fallback keys with
      | Some found => found
      | None => VJson (JString key)
      end
  end.

(** [t(key, fallback)], with the module variable [translations] as an
    argument. *)
Definition t (translations : Value) (key : string) (fallback : Value)
  : Value :=
  let keys := splitDot key in
  walk key keys fallback translations keys.

(** The default of the parameter [fallback]. *)
Definition emptyObject : Value := VJson (JObject []).

(** The JSON value at a path of own keys, if every step but the last lands
    on an object that has the next key. *)
Fixpoint lookupPath (j : Json) (keys : list string) : option Json :=
  match keys with
  | [] => Some j
  | k :: rest =>
    match j with
    | JObject fields =>
      match ownProperty fields k with
      | Some inner => lookupPath inner rest
      | None => None
      end
    | _ => None
    end
  end.

End I18n.

(** The [labelKey] of [getZScoreLabel]; [None] is the [undefined] that an
    unknown metric leaves. *)
Definition zScoreLabelKey (metric : string) (zScore : Js.Number)
  : option string :=
  if String.eqb metric "weight" then
    if Js.ltb zScore (Js.Fin (-2)) then Some "weightSeverelyUnderweight"%string
    else if Js.ltb zScore (Js.Fin (-1)) then Some "weightUnderweight"%string
    else if Js.ltb zScore (Js.Fin 1) then Some "weightNormal"%string
    else if Js.ltb zScore (Js.Fin 2) then Some "weightOverweight"%string
    else Some "weightSeverelyOverweight"%string
  else if String.eqb metric "height" then
    if Js.ltb zScore (Js.Fin (-2)) then Some "heightSeverelyShort"%string
    else if Js.ltb zScore (Js.Fin (-1)) then Some "heightShort"%string
    else if Js.ltb zScore (Js.Fin 1) then Some "heightNormal"%string
    else if Js.ltb zScore (Js.Fin 2) then Some "heightTall"%string
    else Some "heightSeverelyTall"%string
  else if String.eqb metric "bmi" then
    if Js.ltb zScore (Js.Fin (-2)) then Some "bmiSeverelyUnderweight"%string
    else if Js.ltb zScore (Js.Fin (-1)) then Some "bmiUnderweight"%string
    else if Js.ltb zScore (Js.Fin 1) then Some "bmiNormal"%string
    else if Js.ltb zScore (Js.Fin 2) then Some "bmiOverweight"%string
    else Some "bmiSeverelyOverweight"%string
  else None.

(** [getZScoreLabel(metric, zScore)]: [t(`results.${labelKey}`)]. *)
Definition getZScoreLabel (translations : I18n.Value) (metric : string)
    (zScore : Js.Number) : I18n.Value :=
  let labelKey :=
    match zScoreLabelKey metric zScore with
    | Some name => name
    | None => "undefined"%string
    end in
  I18n.t translations (String.append "results." labelKey) I18n.emptyObject.

(** The five classes of a z-score, from the lowest to the highest. *)
Definition zScoreClass (zScore : Js.Number) : nat :=
  if Js.ltb zScore (Js.Fin (-2)) then 0%nat
  else if Js.ltb zScore (Js.Fin (-1)) then 1%nat
  else if Js.ltb zScore (Js.Fin 1) then 2%nat
  else if Js.ltb zScore (Js.Fin 2) then 3%nat
  else 4%nat.

(** The label keys of a metric, from the lowest class to the highest. *)
Definition labelKeysOf (metric : string) : list string :=
  if String.eqb metric "weight" then
    [ "weightSeverelyUnderweight"; "weightUnderweight"; "weightNormal";
      "weightOverweight"; "weightSeverelyOverweight" ]%string
  else if String.eqb metric "height" then
    [ "heightSeverelyShort"; "heightShort"; "heightNormal"; "heightTall";
      "heightSeverelyTall" ]%string
  else if String.eqb metric "bmi" then
    [ "bmiSeverelyUnderweight"; "bmiUnderweight"; "bmiNormal";
      "bmiOverweight"; "bmiSeverelyOverweight" ]%string
  else [].

(** A small locale document for the examples. *)
Definition sampleTranslations : I18n.Json :=
  I18n.JObject
    [ ("form"%string,
       I18n.JObject [ ("gender"%string, I18n.JString "Gender");
                      ("note"%string, I18n.JString "") ]);
      ("results"%string,
       I18n.JObject [ ("weightNormal"%string, I18n.JString "Normal weight") ])
    ].

(* ================================================================= *)
(** ** Body mass index and chart scales *)

Definition calculateBMI (weight height : Js.Number) : Js.Number :=
  let heightMeters := Js.div height (Js.Fin 100) in
  Js.div weight (Js.mul heightMeters heightMeters).

Module Chart.

(** The dimensions that [renderGrowthChart] fixes. *)
Definition width : Q := 800.
Definition height : Q := 400.
Definition paddingTop : Q := 40.
Definition paddingRight : Q := 40.
Definition paddingBottom : Q := 60.
Definition paddingLeft : Q := 60.
Definition chartWidth : Q := width - paddingLeft - paddingRight.
Definition chartHeight : Q := height - paddingTop - paddingBottom.

(** [max - min || 1]: the extent of the data, or 1 when it is zero. *)
Definition rangeOf (min max : Q) : Q :=
  if Qeq_bool (max - min) 0 then 1 else max - min.

Definition minAgePadded (minAge maxAge : Q) : Q :=
  minAge - rangeOf minAge maxAge * (5 # 100).

Definition maxAgePadded (minAge maxAge : Q) : Q :=
  maxAge + rangeOf minAge maxAge * (5 # 100).

(** [Math.max(0, minValue - valueRange * 0.1)] *)
Definition minValuePadded (minValue maxValue : Q) : Q :=
  let low := minValue - rangeOf minValue maxValue * (1 # 10) in
  if Qltb 0 low then low else 0.

Definition maxValuePadded (minValue maxValue : Q) : Q :=
  maxValue + rangeOf minValue maxValue * (1 # 10).

(** The helper [toSvgX] for a chart whose ages span [minAge .. maxAge]. *)
Definition toSvgX (minAge maxAge : Q) (age : Q) : Q :=
  paddingLeft
  + ((age - minAgePadded minAge maxAge)
     / (maxAgePadded minAge maxAge - minAgePadded minAge maxAge))
    * chartWidth.

(** The helper [toSvgY] for a chart whose values span
    [minValue .. maxValue]. *)
Definition toSvgY (minValue maxValue : Q) (value : Q) : Q :=
  height - paddingBottom
  - ((value - minValuePadded minValue maxValue)
     / (maxValuePadded minValue maxValue - minValuePadded minValue maxValue))
    * chartHeight.

End Chart.

(** The decimal text of the ages of [sampleData]. *)
Definition sampleNumberToString (q : Q) : string :=
  if Qeq_bool q 4 then "4"%string
  else if Qeq_bool q 5 then "5"%string
  else if Qeq_bool q 6 then "6"%string
  else "8"%string.

(* ================================================================= *)
(** * Properties *)

(** ** Comparisons of rationals *)

Lemma Qltb_lt (x y : Q) : Qltb x y = true <-> x < y.
Proof.
  unfold Qltb. rewrite negb_true_iff. split; intro H.
  - apply Qnot_le_lt. intro L. apply Qle_bool_iff in L. congruence.
  - destruct (Qle_bool y x) eqn:E; [|reflexivity].
    apply Qle_bool_iff in E. exfalso. apply (Qlt_not_le _ _ H E).
Qed.

Lemma Qltb_ge (x y : Q) : Qltb x y = false <-> y <= x.
Proof.
  unfold Qltb. rewrite negb_false_iff. apply Qle_bool_iff.
Qed.

Lemma Qeq_bool_false (x y : Q) : Qeq_bool x y = false <-> ~ x == y.
Proof.
  split; intro H.
  - intro E. apply Qeq_bool_iff in E. congruence.
  - destruct (Qeq_bool x y) eqn:E; [|reflexivity].
    apply Qeq_bool_iff in E. contradiction.
Qed.

Lemma Qabs_zero_iff (x : Q) : Qabs x == 0 <-> x == 0.
Proof.
  split; intro H.
  - revert H. apply Qabs_case; intros; lra.
  - rewrite H. reflexivity.
Qed.

(** ** The scans of the resolvers pick one of the candidates *)

Section Scan.

Variable step : Rec.t * Q -> Rec.t -> Rec.t * Q.
Hypothesis step_picks :
  forall st record, fst (step st record) = record
                    \/ fst (step st record) = fst st.

Lemma scan_picks (l : list Rec.t) (st : Rec.t * Q) :
  fst (fold_left step l st) = fst st \/ In (fst (fold_left step l st)) l.
Proof.
  revert st. induction l as [|x l IH]; intro st; simpl.
  - left. reflexivity.
  - destruct (IH (step st x)) as [E|I].
    + rewrite E. destruct (step_picks st x) as [P|P]; rewrite P; auto.
    + auto.
Qed.

End Scan.

Lemma ageStep_picks (q : Q) (st : Rec.t * Q) (record : Rec.t) :
  fst (ageStep q st record) = record \/ fst (ageStep q st record) = fst st.
Proof.
  unfold ageStep. destruct st as [c d].
  repeat match goal with |- context [if ?b then _ else _] => destruct b end;
    simpl; auto.
Qed.

Lemma weightStep_picks (w : Q) (st : Rec.t * Q) (record : Rec.t) :
  fst (weightStep w st record) = record
  \/ fst (weightStep w st record) = fst st.
Proof.
  unfold weightStep. destruct st as [c d].
  repeat match goal with |- context [if ?b then _ else _] => destruct b end;
    simpl; auto.
Qed.

Lemma groupStep_picks (m : Metric) (v : Q) (u : bool) (st : Rec.t * Q)
    (record : Rec.t) :
  fst (groupStep m v u st record) = record
  \/ fst (groupStep m v u st record) = fst st.
Proof.
  unfold groupStep. destruct st as [c d].
  repeat match goal with |- context [if ?b then _ else _] => destruct b end;
    simpl; auto.
Qed.

Lemma closestByWeightOf_in (first : Rec.t) (rest : list Rec.t) (w : Q) :
  In (closestByWeightOf first (first :: rest) w) (first :: rest).
Proof.
  unfold closestByWeightOf.
  destruct (scan_picks (weightStep w) (weightStep_picks w) (first :: rest)
              (first, Qabs (Rec.weight first - w))) as [E|I].
  - rewrite E. simpl. auto.
  - exact I.
Qed.

Lemma weightGroupOf_incl (candidates : list Rec.t) (sel r : Rec.t) :
  In r (weightGroupOf candidates sel) -> In r candidates.
Proof.
  unfold weightGroupOf. intro H. apply filter_In in H. tauto.
Qed.

Lemma findClosestInGroup_returns (group : list Rec.t) (m : Metric) (v : Q)
    (u : option string) :
  group <> [] ->
  exists r, findClosestInGroup group m v u = Return r /\ In r group.
Proof.
  destruct group as [|first rest]; [congruence|]. intros _.
  unfold findClosestInGroup. eexists. split; [reflexivity|].
  destruct (scan_picks _ (groupStep_picks m v (Js.truthyString u))
              (first :: rest) (first, Qabs (getMetric first m - v))) as [E|I].
  - rewrite E. simpl. auto.
  - exact I.
Qed.

Lemma longer_than_one_nonempty (A : Type) (l : list A) :
  Nat.ltb 1 (List.length l) = true -> l <> [].
Proof.
  destruct l; simpl; [discriminate | congruence].
Qed.

(** ** What a resolver call results in *)

Lemma findMatchByAge_contract childData gender age ageUnit :
  resolverContract childData gender
    (findMatchByAge childData gender age ageUnit).
Proof.
  unfold resolverContract, findMatchByAge.
  destruct childData as [[|d0 data]|]; try reflexivity.
  simpl (Nat.eqb _ _). cbv iota.
  destruct (filterByGender (d0 :: data) gender) as [|first rest];
    [reflexivity|].
  eexists. split; [reflexivity|].
  destruct (scan_picks _ (ageStep_picks (convertToMonths age ageUnit))
              (first :: rest)
              (first, Qabs (convertToMonths (Rec.age first) (Rec.ageUnit first)
                            - convertToMonths age ageUnit))) as [E|I].
  - rewrite E. simpl. auto.
  - exact I.
Qed.

Lemma refine_in_group (first : Rec.t) (rest : list Rec.t) (w : Q)
    (m : Metric) (v : Q) (u : option string) :
  let group := weightGroupOf (first :: rest)
                 (closestByWeightOf first (first :: rest) w) in
  Nat.ltb 1 (List.length group) = true ->
  exists r, findClosestInGroup group m v u = Return r
            /\ In r (first :: rest).
Proof.
  intros group L.
  destruct (findClosestInGroup_returns group m v u
              (longer_than_one_nonempty _ _ L)) as [r [E I]].
  exists r. split; [exact E|].
  eapply weightGroupOf_incl. exact I.
Qed.

Lemma findMatchByWeightAndHeight_contract childData gender weight height :
  resolverContract childData gender
    (findMatchByWeightAndHeight childData gender weight height).
Proof.
  unfold resolverContract, findMatchByWeightAndHeight.
  destruct childData as [[|d0 data]|]; try reflexivity.
  simpl (Nat.eqb _ _). cbv iota.
  destruct (filterByGender (d0 :: data) gender) as [|first rest];
    [reflexivity|].
  destruct height as [h|].
  - destruct (Nat.ltb 1 _) eqn:L.
    + apply refine_in_group. exact L.
    + eexists. split; [reflexivity | apply closestByWeightOf_in].
  - eexists. split; [reflexivity | apply closestByWeightOf_in].
Qed.

Lemma findClosestMatch_contract childData gender weight age height :
  resolverContract childData gender
    (findClosestMatch childData gender weight age height).
Proof.
  unfold resolverContract, findClosestMatch.
  destruct childData as [[|d0 data]|]; try reflexivity.
  simpl (Nat.eqb _ _). cbv iota.
  destruct (filterByGender (d0 :: data) gender) as [|first rest];
    [reflexivity|].
  destruct age as [a|], height as [h|];
    try (destruct (Nat.ltb 1 _) eqn:L;
         [ apply refine_in_group; exact L
         | eexists; split; [reflexivity | apply closestByWeightOf_in] ]).
  eexists. split; [reflexivity | apply closestByWeightOf_in].
Qed.

Lemma notLoaded_is_not_noDataFor (gender : string) :
  notLoaded <> noDataFor gender.
Proof.
  unfold notLoaded, noDataFor. simpl. intro H. discriminate H.
Qed.

(* ================================================================= *)
(** ** Growth stage of a month-based age *)

(** C1, as the specification words it, fails: [calculateGrowthStage] does
    classify age 72 with unit MONTH as ADOLESCENT, so it is not true that the
    stage returned for that input differs from ADOLESCENT. *)
Lemma growth_stage_72_months_is_adolescent :
  ~ (calculateGrowthStage 72 "MONTH" <> "ADOLESCENT"%string).
Proof.
  intro H. apply H. reflexivity.
Qed.

(** C1, amended: age 72 with unit MONTH is classified ADOLESCENT, as 6 years
    are: the raw age 72 passes the test [age >= 6].  More generally every age
    of 72 months or more, in whichever unit it is given, is classified
    ADOLESCENT. *)
Theorem growth_stage_of_six_years_or_more :
  forall (age : Q) (unit : string),
    72 <= convertToMonths age unit ->
    calculateGrowthStage age unit = "ADOLESCENT"%string
    /\ calculateGrowthStage 72 "MONTH" = calculateGrowthStage 6 "YEAR".
Proof.
  intros age unit M. split; [|reflexivity].
  unfold calculateGrowthStage.
  assert (L : Qltb (convertToMonths age unit) 24 = false)
    by (apply Qltb_ge; lra).
  rewrite L.
  assert (G : Qle_bool 6 age = true).
  { apply Qle_bool_iff. unfold convertToMonths in M.
    destruct (String.eqb unit "MONTH"); lra. }
  rewrite G. reflexivity.
Qed.

Lemma growth_stage_of_six_years_witness :
  72 <= convertToMonths 72 "MONTH"
  /\ calculateGrowthStage 72 "MONTH" = "ADOLESCENT"%string
  /\ calculateGrowthStage 72 "MONTH" = calculateGrowthStage 6 "YEAR".
Proof.
  assert (M : 72 <= convertToMonths 72 "MONTH") by (cbn; lra).
  split; [exact M|].
  apply (growth_stage_of_six_years_or_more 72 "MONTH" M).
Defined.

(** Where the raw age of rule (a) does make months and years disagree: two
    years are CHILD, the same age in months is ADOLESCENT; rule (b) reads
    the months and puts both in the child stage. *)
Example months_and_years_disagree :
  calculateGrowthStage 2 "YEAR" = "CHILD"%string
  /\ calculateGrowthStage 24 "MONTH" = "ADOLESCENT"%string
  /\ determineGrowthStage 2 "YEAR" = "child"%string
  /\ determineGrowthStage 24 "MONTH" = "child"%string.
Proof. repeat split. Qed.

(* ================================================================= *)
(** ** Errors of the resolvers *)

Lemma contract_errors childData gender result :
  resolverContract childData gender result ->
  (result = Throw (noDataFor gender)
   <-> exists data, childData = Some data /\ data <> []
                    /\ filterByGender data gender = [])
  /\ (result = Throw notLoaded
      <-> childData = None \/ childData = Some []).
Proof.
  unfold resolverContract. intro C.
  pose proof (notLoaded_is_not_noDataFor gender) as D.
  destruct childData as [[|d0 data]|].
  - subst result. split; split.
    + intro H. exfalso. apply D. congruence.
    + intros [data [E [N _]]]. exfalso. apply N. congruence.
    + auto.
    + reflexivity.
  - destruct (filterByGender (d0 :: data) gender) as [|first rest] eqn:F.
    + subst result. split; split.
      * intros _. exists (d0 :: data). repeat split; congruence.
      * reflexivity.
      * intro H. exfalso. apply D. congruence.
      * intros [H|H]; discriminate H.
    + destruct C as [r [E _]]. subst result. split; split.
      * discriminate.
      * intros [data' [E [_ F']]]. exfalso. congruence.
      * discriminate.
      * intros [H|H]; discriminate H.
  - subst result. split; split.
    + intro H. exfalso. apply D. congruence.
    + intros [data [E _]]. discriminate E.
    + auto.
    + reflexivity.
Qed.

(** C2, as the specification words it, fails: with a dataset that is loaded
    but empty (so it has zero records for the gender), each resolver throws
    the not-loaded error, which is not the no-data-for-gender error. *)
Lemma empty_dataset_reported_as_not_loaded :
  ~ (forall childData gender age ageUnit,
        findMatchByAge childData gender age ageUnit
        = Throw (noDataFor gender)
        <-> exists data, childData = Some data
                         /\ filterByGender data gender = [])
  /\ ~ (forall childData gender weight height,
          findMatchByWeightAndHeight childData gender weight height
          = Throw (noDataFor gender)
          <-> exists data, childData = Some data
                           /\ filterByGender data gender = [])
  /\ ~ (forall childData gender weight age height,
          findClosestMatch childData gender weight age height
          = Throw (noDataFor gender)
          <-> exists data, childData = Some data
                           /\ filterByGender data gender = []).
Proof.
  assert (L : exists data : list Rec.t,
                Some (@nil Rec.t) = Some data
                /\ filterByGender data "BOY" = [])
    by (exists []; split; reflexivity).
  repeat split; intro H.
  - apply (H (Some []) "BOY"%string 6 "MONTH"%string) in L. discriminate L.
  - apply (H (Some []) "BOY"%string (15 # 2) None) in L. discriminate L.
  - apply (H (Some []) "BOY"%string (15 # 2) None None) in L. discriminate L.
Qed.

(** C2, amended: each of the three resolvers throws the no-data-for-gender
    error exactly when the dataset is loaded, is not empty and has no record
    of the requested gender, and throws the not-loaded error exactly when the
    dataset is not loaded or is loaded but empty. *)
Theorem resolver_errors :
  forall childData gender age ageUnit weight height optAge optHeight,
    Forall
      (fun result =>
         (result = Throw (noDataFor gender)
          <-> exists data, childData = Some data /\ data <> []
                           /\ filterByGender data gender = [])
         /\ (result = Throw notLoaded
             <-> childData = None \/ childData = Some []))
      [ findMatchByAge childData gender age ageUnit;
        findMatchByWeightAndHeight childData gender weight height;
        findClosestMatch childData gender weight optAge optHeight ].
Proof.
  intros.
  apply Forall_cons; [|apply Forall_cons; [|apply Forall_cons; [|apply Forall_nil]]];
    apply contract_errors.
  - apply findMatchByAge_contract.
  - apply findMatchByWeightAndHeight_contract.
  - apply findClosestMatch_contract.
Qed.

(* ================================================================= *)
(** ** Gender invariant of the resolvers *)

Lemma contract_returns childData gender result r :
  resolverContract childData gender result ->
  result = Return r ->
  exists data, childData = Some data /\ In r data /\ Rec.gender r = gender.
Proof.
  unfold resolverContract. intros C E.
  destruct childData as [[|d0 data]|]; try congruence.
  destruct (filterByGender (d0 :: data) gender) as [|first rest] eqn:F;
    [congruence|].
  destruct C as [r' [E' I]]. rewrite E in E'. inversion E'. subst r'.
  rewrite <- F in I. unfold filterByGender in I. apply filter_In in I.
  destruct I as [I G]. apply String.eqb_eq in G.
  exists (d0 :: data). auto.
Qed.

(** C8: whenever one of [findMatchByAge], [findMatchByWeightAndHeight] and
    [findClosestMatch] returns a record, the dataset is loaded, the record is
    one of its elements and the gender of the record is the requested one. *)
Theorem resolvers_return_record_of_requested_gender :
  forall childData gender age ageUnit weight height optAge optHeight r,
    findMatchByAge childData gender age ageUnit = Return r
    \/ findMatchByWeightAndHeight childData gender weight height = Return r
    \/ findClosestMatch childData gender weight optAge optHeight = Return r ->
    exists data,
      childData = Some data /\ In r data /\ Rec.gender r = gender.
Proof.
  intros until r. intros [E|[E|E]];
    eapply contract_returns; try exact E.
  - apply findMatchByAge_contract.
  - apply findMatchByWeightAndHeight_contract.
  - apply findClosestMatch_contract.
Qed.

Lemma resolvers_return_record_witness :
  findMatchByAge (Some sampleData) "BOY" 5 "MONTH" = Return boy5
  /\ exists data,
       Some sampleData = Some data /\ In boy5 data /\ Rec.gender boy5 = "BOY"%string.
Proof.
  split; [reflexivity|].
  apply (resolvers_return_record_of_requested_gender
           (Some sampleData) "BOY" 5 "MONTH" 0 None None None boy5).
  left. reflexivity.
Defined.

(* ================================================================= *)
(** ** The scan of [findMatchByAge] *)

(** Case analysis on the comparisons of a scan step. *)
Ltac q_cases :=
  repeat match goal with
  | |- context [if Qltb ?a ?b then _ else _] =>
      let E := fresh "E" in
      destruct (Qltb a b) eqn:E;
      [apply Qltb_lt in E | apply Qltb_ge in E]
  | |- context [if Qeq_bool ?a ?b then _ else _] =>
      let E := fresh "E" in
      destruct (Qeq_bool a b) eqn:E;
      [apply Qeq_bool_iff in E | apply Qeq_bool_false in E]
  | |- context [if Qle_bool ?a ?b then _ else _] =>
      let E := fresh "E" in
      destruct (Qle_bool a b) eqn:E;
      [apply Qle_bool_iff in E
      | assert (b < a)
          by (apply Qltb_lt; unfold Qltb; rewrite E; reflexivity);
        clear E]
  end.

(** Closes a case whose comparisons contradict each other. *)
Ltac q_absurd :=
  exfalso; unfold monthsOf in *;
  solve [ lra
        | match goal with H : ~ (_ == _) |- _ => apply H; lra end ].

Lemma months_eq_of_distance_zero (x q : Q) : Qabs (x - q) == 0 -> x == q.
Proof.
  intro H. apply (proj1 (Qabs_zero_iff (x - q))) in H. lra.
Qed.

(** Once the scan holds a record at distance zero, and no other record of the
    rest has its age in months, the scan keeps it. *)
Lemma age_scan_keeps_exact (q : Q) (r : Rec.t) (l : list Rec.t) (d : Q) :
  d == 0 ->
  monthsOf r == q ->
  (forall x, In x l -> monthsOf x == monthsOf r -> x = r) ->
  fst (fold_left (ageStep q) l (r, d)) = r.
Proof.
  intros D R U. induction l as [|x l IH]; [reflexivity|].
  cbn [fold_left].
  assert (S : ageStep q (r, d) x = (r, d)).
  { unfold ageStep. fold (monthsOf x) (monthsOf r).
    pose proof (Qabs_nonneg (monthsOf x - q)) as N.
    q_cases;
      first
        [ reflexivity
        | solve [q_absurd]
        | assert (M : monthsOf x == q)
            by (apply months_eq_of_distance_zero; lra);
          rewrite (U x (or_introl eq_refl) ltac:(lra)); reflexivity ]. }
  rewrite S. apply IH. intros y I. apply U. right. exact I.
Qed.

(** A scan that meets a record whose age in months is the queried one, and
    that no other candidate shares, ends on that record. *)
Lemma age_scan_finds_exact (q : Q) (r : Rec.t) (l : list Rec.t) :
  monthsOf r == q ->
  (forall x, In x l -> monthsOf x == monthsOf r -> x = r) ->
  In r l ->
  forall c d,
    d == Qabs (monthsOf c - q) ->
    (monthsOf c == monthsOf r -> c = r) ->
    fst (fold_left (ageStep q) l (c, d)) = r.
Proof.
  intros R. induction l as [|x l IH]; intros U I c d D C; [destruct I|].
  cbn [fold_left].
  assert (Ul : forall y, In y l -> monthsOf y == monthsOf r -> y = r)
    by (intros y Hy; apply U; right; exact Hy).
  destruct I as [X|I].
  - subst x.
    assert (Z : Qabs (monthsOf r - q) == 0)
      by (apply Qabs_zero_iff; lra).
    pose proof (Qabs_nonneg (monthsOf c - q)) as N.
    assert (S : exists d', ageStep q (c, d) r = (r, d') /\ d' == 0).
    { unfold ageStep. fold (monthsOf r) (monthsOf c).
      q_cases;
        first
          [ solve [eexists; split; [reflexivity | lra]]
          | solve [q_absurd]
          | assert (M : monthsOf c == q)
              by (apply months_eq_of_distance_zero; lra);
            rewrite (C ltac:(lra)); exists d; split; [reflexivity | lra] ]. }
    destruct S as [d' [S Z']]. rewrite S.
    apply age_scan_keeps_exact; assumption.
  - assert (S : exists c' d', ageStep q (c, d) x = (c', d')
                              /\ d' == Qabs (monthsOf c' - q)
                              /\ (c' = x \/ c' = c)).
    { unfold ageStep. fold (monthsOf x) (monthsOf c).
      q_cases; do 2 eexists; (split; [reflexivity|]); split;
        auto; try reflexivity; try lra. }
    destruct S as [c' [d' [S [D' P]]]]. rewrite S.
    apply IH; try assumption.
    destruct P as [P|P]; subst c'; [|exact C].
    apply U. left. reflexivity.
Qed.

(** C6: for a record [r] of a loaded dataset whose age in months no other
    record of its gender has, [findMatchByAge] called with the gender, age
    and unit of [r] returns [r]. *)
Theorem findMatchByAge_idempotent :
  forall (data : list Rec.t) (r : Rec.t),
    In r data ->
    (forall r', In r' data -> Rec.gender r' = Rec.gender r ->
                monthsOf r' == monthsOf r -> r' = r) ->
    findMatchByAge (Some data) (Rec.gender r) (Rec.age r) (Rec.ageUnit r)
    = Return r.
Proof.
  intros data r I U. unfold findMatchByAge.
  destruct data as [|d0 data]; [destruct I|].
  simpl (Nat.eqb _ _). cbv iota.
  assert (Ic : In r (filterByGender (d0 :: data) (Rec.gender r))).
  { unfold filterByGender. apply filter_In. split; [exact I|].
    apply String.eqb_refl. }
  assert (Uc : forall x, In x (filterByGender (d0 :: data) (Rec.gender r)) ->
                         monthsOf x == monthsOf r -> x = r).
  { intros x Hx. unfold filterByGender in Hx. apply filter_In in Hx.
    destruct Hx as [Hx G]. apply String.eqb_eq in G. apply U; assumption. }
  destruct (filterByGender (d0 :: data) (Rec.gender r)) as [|first rest];
    [destruct Ic|].
  f_equal. fold (monthsOf r) (monthsOf first).
  apply age_scan_finds_exact; try assumption; try reflexivity.
  apply Uc. left. reflexivity.
Qed.

Lemma findMatchByAge_idempotent_witness :
  (In boy5 sampleData
   /\ forall r', In r' sampleData -> Rec.gender r' = Rec.gender boy5 ->
                 monthsOf r' == monthsOf boy5 -> r' = boy5)
  /\ findMatchByAge (Some sampleData) "BOY" 5 "MONTH" = Return boy5.
Proof.
  assert (U : forall r', In r' sampleData -> Rec.gender r' = Rec.gender boy5 ->
                         monthsOf r' == monthsOf boy5 -> r' = boy5).
  { intros r' [H|[H|[H|[H|[]]]]] G M; subst r';
      try reflexivity; try discriminate G; discriminate M. }
  split.
  - split; [simpl; auto | exact U].
  - apply (findMatchByAge_idempotent sampleData boy5); [simpl; auto | exact U].
Defined.

(* ================================================================= *)
(** ** Ties of [findMatchByAge] *)

Lemma findMatchByAge_two_candidates data gender age ageUnit (a b : Rec.t) :
  filterByGender data gender = [a; b] ->
  Qabs (monthsOf a - convertToMonths age ageUnit)
  == Qabs (monthsOf b - convertToMonths age ageUnit) ->
  findMatchByAge (Some data) gender age ageUnit = Return (olderOf a b).
Proof.
  intros F T. unfold findMatchByAge.
  destruct data as [|d0 data]; [discriminate F|].
  simpl (Nat.eqb _ _). cbv iota. rewrite F.
  cbn [fold_left]. unfold ageStep, olderOf.
  fold (monthsOf a) (monthsOf b).
  q_cases; first [reflexivity | solve [q_absurd]].
Qed.

Lemma olderOf_comm (a b : Rec.t) :
  ~ monthsOf a == monthsOf b -> olderOf b a = olderOf a b.
Proof.
  intro N. unfold olderOf.
  q_cases; first [reflexivity | exfalso; apply N; lra | q_absurd].
Qed.

(** C7: when the candidates of the requested gender are exactly two records
    that are equally far, in months, from the queried age and whose ages in
    months differ, [findMatchByAge] returns the one with the larger age in
    months, in whichever of the two orders the dataset holds them. *)
Theorem findMatchByAge_tie_order_independent :
  forall data1 data2 gender age ageUnit (a b : Rec.t),
    filterByGender data1 gender = [a; b] ->
    filterByGender data2 gender = [b; a] ->
    Qabs (monthsOf a - convertToMonths age ageUnit)
    == Qabs (monthsOf b - convertToMonths age ageUnit) ->
    ~ monthsOf a == monthsOf b ->
    exists winner,
      findMatchByAge (Some data1) gender age ageUnit = Return winner
      /\ findMatchByAge (Some data2) gender age ageUnit = Return winner
      /\ (winner = a \/ winner = b)
      /\ monthsOf a <= monthsOf winner
      /\ monthsOf b <= monthsOf winner.
Proof.
  intros data1 data2 gender age ageUnit a b F1 F2 T N.
  exists (olderOf a b). split; [|split; [|split; [|split]]].
  - apply findMatchByAge_two_candidates; assumption.
  - rewrite <- (olderOf_comm a b N).
    apply findMatchByAge_two_candidates; [assumption|].
    symmetry. exact T.
  - unfold olderOf. destruct (Qltb _ _); auto.
  - unfold olderOf. q_cases; lra.
  - unfold olderOf. q_cases; lra.
Qed.

Lemma findMatchByAge_tie_witness :
  (filterByGender [boy4; girl6; boy8] "BOY" = [boy4; boy8]
   /\ filterByGender [boy8; boy4; girl6] "BOY" = [boy8; boy4]
   /\ Qabs (monthsOf boy4 - convertToMonths 6 "MONTH")
      == Qabs (monthsOf boy8 - convertToMonths 6 "MONTH")
   /\ ~ monthsOf boy4 == monthsOf boy8)
  /\ exists winner,
       findMatchByAge (Some [boy4; girl6; boy8]) "BOY" 6 "MONTH" = Return winner
       /\ findMatchByAge (Some [boy8; boy4; girl6]) "BOY" 6 "MONTH" = Return winner
       /\ (winner = boy4 \/ winner = boy8)
       /\ monthsOf boy4 <= monthsOf winner
       /\ monthsOf boy8 <= monthsOf winner.
Proof.
  assert (N : ~ monthsOf boy4 == monthsOf boy8) by (intro M; discriminate M).
  split.
  - repeat split; try reflexivity. exact N.
  - apply (findMatchByAge_tie_order_independent
             [boy4; girl6; boy8] [boy8; boy4; girl6] "BOY" 6 "MONTH" boy4 boy8);
      try reflexivity.
    exact N.
Defined.

(* ================================================================= *)
(** ** Height refinement of [findMatchByWeightAndHeight] *)





(* ================================================================= *)
(** ** The deviation-to-score mapping *)

Lemma deviationToCloseness_finite (x : Q) :
  exists e, deviationToCloseness (Js.Fin x) = Js.Fin e /\ closenessPiece x e.
Proof.
  unfold deviationToCloseness, closenessPiece.
  cbn [Js.leb Js.sub Js.add Js.neg Js.mul].
  q_cases; eexists; (split; [reflexivity|]);
    first
      [ solve [left; split; lra]
      | solve [right; left; repeat split; lra]
      | solve [right; right; left; repeat split; lra]
      | solve [right; right; right; left; repeat split; lra]
      | solve [right; right; right; right; split; lra] ].
Qed.

(** The table never rises, and falls by at most 1.5 points per percent: it
    is continuous, in particular at its breakpoints. *)
Lemma closenessPiece_monotone (x y ex ey : Q) :
  closenessPiece x ex -> closenessPiece y ey -> x <= y ->
  ey <= ex /\ ex - ey <= (3 # 2) * (y - x).
Proof.
  unfold closenessPiece.
  intros [X|[X|[X|[X|X]]]] [Y|[Y|[Y|[Y|Y]]]] L;
    decompose [and] X; decompose [and] Y; split; lra.
Qed.

Lemma closenessPiece_at_most_100 (x e : Q) : closenessPiece x e -> e <= 100.
Proof.
  unfold closenessPiece.
  intros [X|[X|[X|[X|X]]]]; decompose [and] X; lra.
Qed.

Lemma clamp_round_finite (e : Q) :
  Js.round (Js.max (Js.Fin 0) (Js.Fin e))
  = Js.Fin (roundQ (if Qltb 0 e then e else 0)).
Proof.
  unfold Js.max. cbn [Js.ltb]. destruct (Qltb 0 e); reflexivity.
Qed.

Lemma roundQ_monotone (a b : Q) : a <= b -> roundQ a <= roundQ b.
Proof.
  intro L. unfold roundQ. rewrite <- Zle_Qle. apply Qfloor_resp_le. lra.
Qed.

Lemma clamp_monotone (a b : Q) :
  a <= b -> (if Qltb 0 a then a else 0) <= (if Qltb 0 b then b else 0).
Proof.
  intro L. q_cases; lra.
Qed.

Lemma closenessScore_finite (x : Q) :
  exists e, closenessPiece x e
            /\ closenessScore (Js.Fin x)
               = Js.Fin (roundQ (if Qltb 0 e then e else 0)).
Proof.
  destruct (deviationToCloseness_finite x) as [e [E P]].
  exists e. split; [exact P|].
  unfold closenessScore. rewrite E. apply clamp_round_finite.
Qed.

Lemma closenessScore_range (x : Q) :
  exists s, closenessScore (Js.Fin x) = Js.Fin s /\ 0 <= s /\ s <= 100.
Proof.
  destruct (closenessScore_finite x) as [e [P E]].
  eexists. split; [exact E|].
  pose proof (closenessPiece_at_most_100 x e P) as B.
  assert (R0 : roundQ 0 == 0) by reflexivity.
  assert (R100 : roundQ 100 == 100) by reflexivity.
  split.
  - rewrite <- R0 at 1. apply roundQ_monotone. q_cases; lra.
  - rewrite <- R100. apply roundQ_monotone. q_cases; lra.
Qed.

Lemma deviationToCloseness_monotone (dev1 dev2 : Js.Number) :
  Js.ltb dev1 dev2 = true ->
  Js.leb (deviationToCloseness dev2) (deviationToCloseness dev1) = true.
Proof.
  destruct dev1 as [| | |x], dev2 as [| | |y]; intro L;
    try discriminate L; try reflexivity.
  - destruct (deviationToCloseness_finite y) as [e [E P]]. rewrite E.
    change (deviationToCloseness Js.NegInf) with (Js.Fin 100).
    cbn [Js.leb]. apply Qle_bool_iff.
    apply (closenessPiece_at_most_100 y e P).
  - destruct (deviationToCloseness_finite x) as [e [E P]]. rewrite E.
    reflexivity.
  - cbn [Js.ltb] in L. apply Qltb_lt in L.
    destruct (deviationToCloseness_finite x) as [ex [Ex Px]].
    destruct (deviationToCloseness_finite y) as [ey [Ey Py]].
    rewrite Ex, Ey. cbn [Js.leb]. apply Qle_bool_iff.
    apply (closenessPiece_monotone x y ex ey Px Py). lra.
Qed.

Lemma closenessScore_monotone (dev1 dev2 : Js.Number) :
  Js.ltb dev1 dev2 = true ->
  Js.leb (closenessScore dev2) (closenessScore dev1) = true.
Proof.
  destruct dev1 as [| | |x], dev2 as [| | |y]; intro L;
    try discriminate L; try reflexivity.
  - destruct (closenessScore_range y) as [s [E [_ B]]]. rewrite E.
    change (closenessScore Js.NegInf) with (Js.Fin (roundQ 100)).
    cbn [Js.leb]. apply Qle_bool_iff. exact B.
  - destruct (closenessScore_range x) as [s [E [B _]]]. rewrite E.
    change (closenessScore Js.PosInf) with (Js.Fin (roundQ 0)).
    cbn [Js.leb]. apply Qle_bool_iff. exact B.
  - cbn [Js.ltb] in L. apply Qltb_lt in L.
    destruct (closenessScore_finite x) as [ex [Px Ex]].
    destruct (closenessScore_finite y) as [ey [Py Ey]].
    rewrite Ex, Ey. cbn [Js.leb]. apply Qle_bool_iff.
    apply roundQ_monotone, clamp_monotone.
    apply (closenessPiece_monotone x y ex ey Px Py). lra.
Qed.

(** C5: the deviation-to-score mapping of [calculateCloseness] never rises:
    of two deviations the larger has a score that is at most the score of the
    smaller, before and after the clamping and rounding of the last line; the
    mapping is continuous (over finite deviations it falls by at most 1.5
    points per percent), and the scores at the breakpoints 10, 20, 30 and 40
    are 100, 90, 75 and 60. *)
Theorem closeness_score_monotone_and_continuous :
  (forall dev1 dev2,
      Js.ltb dev1 dev2 = true ->
      Js.leb (closenessScore dev2) (closenessScore dev1) = true
      /\ Js.leb (deviationToCloseness dev2) (deviationToCloseness dev1) = true)
  /\ (forall x y : Q,
         x <= y ->
         exists a b,
           deviationToCloseness (Js.Fin x) = Js.Fin a
           /\ deviationToCloseness (Js.Fin y) = Js.Fin b
           /\ b <= a /\ a - b <= (3 # 2) * (y - x))
  /\ closenessScore (Js.Fin 10) = Js.Fin 100
  /\ closenessScore (Js.Fin 20) = Js.Fin 90
  /\ closenessScore (Js.Fin 30) = Js.Fin 75
  /\ closenessScore (Js.Fin 40) = Js.Fin 60
  /\ Js.eqb (deviationToCloseness (Js.Fin 10)) (Js.Fin 100) = true
  /\ Js.eqb (deviationToCloseness (Js.Fin 20)) (Js.Fin 90) = true
  /\ Js.eqb (deviationToCloseness (Js.Fin 30)) (Js.Fin 75) = true
  /\ Js.eqb (deviationToCloseness (Js.Fin 40)) (Js.Fin 60) = true.
Proof.
  split; [|split; [|repeat split]].
  - intros dev1 dev2 L. split.
    + apply closenessScore_monotone. exact L.
    + apply deviationToCloseness_monotone. exact L.
  - intros x y L.
    destruct (deviationToCloseness_finite x) as [a [Ea Pa]].
    destruct (deviationToCloseness_finite y) as [b [Eb Pb]].
    exists a, b. split; [exact Ea|]. split; [exact Eb|].
    apply (closenessPiece_monotone x y a b Pa Pb L).
Qed.

Lemma closeness_score_monotone_witness :
  Js.ltb (Js.Fin 15) (Js.Fin (45 # 2)) = true
  /\ Js.leb (closenessScore (Js.Fin (45 # 2))) (closenessScore (Js.Fin 15))
     = true
  /\ Js.leb (deviationToCloseness (Js.Fin (45 # 2)))
            (deviationToCloseness (Js.Fin 15)) = true.
Proof.
  split; [reflexivity|].
  apply (proj1 closeness_score_monotone_and_continuous
           (Js.Fin 15) (Js.Fin (45 # 2))).
  reflexivity.
Defined.

(* ================================================================= *)
(** ** Input validation *)

Lemma nonEmpty_truthy (s : option string) :
  Js.truthyString s = true <-> nonEmpty s.
Proof.
  unfold nonEmpty. destruct s as [t|]; simpl.
  - rewrite negb_true_iff. split.
    + intro H. exists t. split; [reflexivity|].
      apply String.eqb_neq. exact H.
    + intros [t' [E N]]. inversion E. subst t'.
      apply String.eqb_neq. exact N.
  - split; [discriminate | intros [t [E _]]; discriminate E].
Qed.

Lemma genderErrors_cases (gender : option string) :
  (nonEmpty gender /\ genderErrors gender = [])
  \/ (~ nonEmpty gender /\ genderErrors gender = [msgGender]).
Proof.
  unfold genderErrors.
  destruct (Js.truthyString gender) eqn:T; simpl.
  - left. split; [apply nonEmpty_truthy; exact T | reflexivity].
  - right. split; [|reflexivity].
    intro N. apply nonEmpty_truthy in N. congruence.
Qed.

Lemma ageErrors_cases (age : option string) :
  (nonEmpty age /\ ageErrors age = [])
  \/ (~ nonEmpty age /\ ageErrors age = [msgAge]).
Proof.
  unfold ageErrors.
  destruct (Js.truthyString age) eqn:T; simpl.
  - left. split; [apply nonEmpty_truthy; exact T | reflexivity].
  - right. split; [|reflexivity].
    intro N. apply nonEmpty_truthy in N. congruence.
Qed.

Lemma weightErrors_cases (weight : Js.NumericInput) :
  (validWeight weight /\ weightErrors weight = [])
  \/ (~ validWeight weight
      /\ (weightErrors weight = [msgWeightRequired]
          \/ weightErrors weight = [msgWeightRange])).
Proof.
  unfold validWeight, weightErrors, outside.
  destruct weight as [| | |[| | |q]]; simpl;
    try (right; split; [intros [q' [E _]]; discriminate E | auto]).
  destruct (Qeq_bool q 0) eqn:Z; simpl.
  - right. split; [|auto].
    intros [q' [E [L _]]]. inversion E. subst q'.
    apply Qeq_bool_iff in Z. lra.
  - destruct (Qltb q (1 # 100)) eqn:L1; simpl.
    + right. split; [|auto].
      intros [q' [E [L _]]]. inversion E. subst q'.
      apply Qltb_lt in L1. lra.
    + destruct (Qltb 150 q) eqn:L2; simpl.
      * right. split; [|auto].
        intros [q' [E [_ L]]]. inversion E. subst q'.
        apply Qltb_lt in L2. lra.
      * left. split; [|reflexivity].
        exists q. apply Qltb_ge in L1. apply Qltb_ge in L2. auto.
Qed.

Lemma heightErrors_cases (height : Js.NumericInput) :
  (validHeight height /\ heightErrors (Js.defaultNull height) = [])
  \/ (~ validHeight height
      /\ (heightErrors (Js.defaultNull height) = [msgHeightNumber]
          \/ heightErrors (Js.defaultNull height) = [msgHeightRange])).
Proof.
  unfold validHeight, heightErrors, outside.
  destruct height as [| | |[| | |q]]; simpl;
    try (left; split; [auto | reflexivity]);
    try (right; split;
         [ intros [E|[E|[E|[q' [E _]]]]]; discriminate E | auto ]).
  destruct (Qltb q (1 # 100)) eqn:L1; simpl.
  - right. split; [|auto].
    intros [E|[E|[E|[q' [E [L _]]]]]]; try discriminate E.
    inversion E. subst q'. apply Qltb_lt in L1. lra.
  - destruct (Qltb 220 q) eqn:L2; simpl.
    + right. split; [|auto].
      intros [E|[E|[E|[q' [E [_ L]]]]]]; try discriminate E.
      inversion E. subst q'. apply Qltb_lt in L2. lra.
    + left. split; [|reflexivity].
      right; right; right. exists q.
      apply Qltb_ge in L1. apply Qltb_ge in L2. auto.
Qed.

(** C9: [validateInput] returns the empty list if and only if the gender is
    given, the weight is a number between 0.01 and 150, the age is given and
    the height is either not given or a number between 0.01 and 220; and the
    returned list holds a message of a rule exactly when that rule is
    violated. *)
Theorem validateInput_empty_iff_valid :
  forall gender weight height age,
    let errors := validateInput gender weight height age in
    (errors = []
     <-> nonEmpty gender /\ validWeight weight /\ nonEmpty age
         /\ validHeight height)
    /\ (In msgGender errors <-> ~ nonEmpty gender)
    /\ (In msgWeightRequired errors \/ In msgWeightRange errors
        <-> ~ validWeight weight)
    /\ (In msgAge errors <-> ~ nonEmpty age)
    /\ (In msgHeightNumber errors \/ In msgHeightRange errors
        <-> ~ validHeight height).
Proof.
  intros gender weight height age. unfold validateInput. cbv zeta.
  destruct (genderErrors_cases gender) as [[G Eg]|[G Eg]];
  destruct (weightErrors_cases weight) as [[W Ew]|[W [Ew|Ew]]];
  destruct (ageErrors_cases age) as [[A Ea]|[A Ea]];
  destruct (heightErrors_cases height) as [[H Eh]|[H [Eh|Eh]]];
    rewrite Eg, Ew, Ea, Eh;
    unfold msgGender, msgWeightRequired, msgWeightRange, msgAge,
           msgHeightNumber, msgHeightRange;
    cbn [app In];
    repeat split; intros; intuition (try discriminate; try congruence).
Qed.

Example validateInput_accepts :
  validateInput (Some "BOY"%string) (Js.Num (Js.Fin (15 # 2))) Js.Null
                (Some "6-MONTH"%string) = [].
Proof. reflexivity. Qed.

Example validateInput_rejects :
  validateInput None (Js.Num Js.NaN) (Js.Num (Js.Fin 300)) None
  = [msgGender; msgWeightRequired; msgAge; msgHeightRange].
Proof. reflexivity. Qed.

(* ================================================================= *)
(** ** A falsy height is an absent height *)




(** With a height of 0 the score is the one of the weight alone, while a
    real height of the same input changes it. *)
Example closeness_with_zero_height :
  calculateCloseness (Js.Fin 8) (Js.orNull (Js.Num (Js.Fin 0))) (Some boy8)
  = Js.Fin 100
  /\ calculateCloseness (Js.Fin 8) (Js.Num (Js.Fin 0)) (Some boy8)
     = Js.Fin 47.
Proof. split; reflexivity. Qed.

(** The scenario of the specification: weight 8 against an expected weight
    of 7 deviates by about 14.29 percent and scores 96. *)
Example closeness_scenario :
  calculateCloseness (Js.Fin 8) Js.Null
                     (Some (Rec.mk "BOY" 6 "MONTH" 7 70 "INFANT"))
  = Js.Fin 96.
Proof. reflexivity. Qed.

(* ================================================================= *)
(** ** The age that [getZScoreCurves] looks up *)

Lemma roundQ_nearest (x : Q) :
  exists n : Z,
    roundQ x = inject_Z n
    /\ inject_Z n - (1 # 2) <= x /\ x < inject_Z n + (1 # 2).
Proof.
  exists (Qfloor (x + (1 # 2))). split; [reflexivity|].
  pose proof (Qfloor_le (x + (1 # 2))) as L.
  pose proof (Qlt_floor (x + (1 # 2))) as U.
  rewrite inject_Z_plus in U. change (inject_Z 1) with 1 in U.
  split; lra.
Qed.

Lemma findEntry_some (dataSource : list ZEntry.t) (ageValue : Q)
    (gender : string) (entry : ZEntry.t) :
  findEntry dataSource ageValue gender = Some entry ->
  In entry dataSource /\ ZEntry.age entry == ageValue
  /\ ZEntry.gender entry = gender.
Proof.
  unfold findEntry. intro F. apply find_some in F. destruct F as [I B].
  apply andb_true_iff in B. destruct B as [A G].
  apply Qeq_bool_iff in A. apply String.eqb_eq in G. auto.
Qed.

Lemma findEntry_none (dataSource : list ZEntry.t) (ageValue : Q)
    (gender : string) :
  findEntry dataSource ageValue gender = None ->
  forall entry, In entry dataSource ->
                ~ (ZEntry.age entry == ageValue
                   /\ ZEntry.gender entry = gender).
Proof.
  unfold findEntry. intros F entry I [A G].
  pose proof (find_none _ _ F entry I) as B. cbv beta in B.
  apply Qeq_bool_iff in A. apply String.eqb_eq in G.
  rewrite A, G in B. discriminate B.
Qed.

(** C4, as the specification words it, fails on both counts.  A month-based
    age of the adolescent stage is looked up as it is, not as its nearest
    whole year: for 120 months the entry of year 10 is not found, although
    the same query in years finds it and the sibling [getMedianHeightForAge]
    finds it from the months.  And a year-based age of another stage is
    looked up rounded, not at its own value: 2.6 years finds the entry of
    age 3. *)
Lemma z_score_lookup_age_not_as_stated :
  ~ (forall z gender age metric,
        determineGrowthStage age "MONTH" = "adolescent"%string ->
        getZScoreCurves (Some z) gender age "MONTH" metric
        = getZScoreCurves (Some z) gender (roundQ (age / 12)) "YEAR" metric)
  /\ ~ (forall z gender age ageUnit metric curves,
          determineGrowthStage age ageUnit <> "adolescent"%string ->
          getZScoreCurves (Some z) gender age ageUnit metric
          = Return (Some curves) ->
          exists dataSource entry,
            dataSourceOf z (determineGrowthStage age ageUnit) = Some dataSource
            /\ In entry dataSource /\ ZEntry.age entry == age).
Proof.
  split; intro H.
  - specialize (H sampleZScoreData "BOY"%string 120 "bmi"%string eq_refl).
    discriminate H.
  - set (z := mkZScoreData (Some []) (Some [ZEntry.mk 3 "BOY" (Some weightCurve)
                                                      None None None])
                           None None (Some (mkAgeRange 2 9 "YEAR")) None).
    destruct (H z "BOY"%string (26 # 10) "YEAR"%string "weight"%string
                weightCurve ltac:(discriminate) eq_refl)
      as [dataSource [entry [D [I A]]]].
    inversion D. subst dataSource.
    destruct I as [I|[]]. subst entry. discriminate A.
Qed.

(** What the code does at the input of the first count, and what its
    sibling does there. *)
Example adolescent_months_not_converted :
  determineGrowthStage 120 "MONTH" = "adolescent"%string
  /\ getZScoreCurves (Some sampleZScoreData) "BOY" 120 "MONTH" "bmi"
     = Return None
  /\ getZScoreCurves (Some sampleZScoreData) "BOY" 10 "YEAR" "bmi"
     = Return (Some bmiCurve)
  /\ getMedianHeightForAge (Some sampleZScoreData) "BOY" 120 "MONTH"
     = Some (1377 # 10).
Proof. repeat split. Qed.

(** C4, amended: a year-based age is looked up rounded to the nearest whole
    number, in the adolescent stage and in the others; a month-based age of
    a non-adolescent stage is looked up at its own value.  With that age as
    the key, a query of a stage that has a strategy and a partition returns
    the curves of the first entry of the partition that has the key as its
    age and the requested gender, and the empty result when the partition
    has no such entry.  (A month-based age of the adolescent stage is left
    out of the statement.) *)
Theorem getZScoreCurves_lookup_age :
  forall z gender age ageUnit metric dataSource,
    ageUnit <> "MONTH"%string
    \/ determineGrowthStage age ageUnit <> "adolescent"%string ->
    strategyOf z (determineGrowthStage age ageUnit) <> None ->
    dataSourceOf z (determineGrowthStage age ageUnit) = Some dataSource ->
    exists key : Q,
      (ageUnit = "MONTH"%string -> key = age)
      /\ (ageUnit <> "MONTH"%string ->
          exists n : Z,
            key = inject_Z n
            /\ inject_Z n - (1 # 2) <= age /\ age < inject_Z n + (1 # 2))
      /\ getZScoreCurves (Some z) gender age ageUnit metric
         = Return
             match findEntry dataSource key gender with
             | Some entry =>
                 curveOf (determineGrowthStage age ageUnit) metric entry
             | None => None
             end
      /\ (forall curves,
            getZScoreCurves (Some z) gender age ageUnit metric
            = Return (Some curves) ->
            exists entry,
              In entry dataSource
              /\ ZEntry.age entry == key
              /\ ZEntry.gender entry = gender
              /\ curveOf (determineGrowthStage age ageUnit) metric entry
                 = Some curves)
      /\ ((forall entry,
             In entry dataSource ->
             ~ (ZEntry.age entry == key /\ ZEntry.gender entry = gender)) ->
          getZScoreCurves (Some z) gender age ageUnit metric = Return None).
Proof.
  intros z gender age ageUnit metric dataSource _ S D.
  assert (R : getZScoreCurves (Some z) gender age ageUnit metric
              = Return
                  match findEntry dataSource (ageValueOf age ageUnit) gender
                  with
                  | Some entry =>
                      curveOf (determineGrowthStage age ageUnit) metric entry
                  | None => None
                  end).
  { unfold getZScoreCurves. rewrite D.
    destruct (strategyOf z (determineGrowthStage age ageUnit));
      [|congruence].
    destruct (findEntry dataSource (ageValueOf age ageUnit) gender);
      reflexivity. }
  exists (ageValueOf age ageUnit).
  split; [|split; [|split; [exact R|split]]].
  - intro M. subst ageUnit. reflexivity.
  - intro M. apply String.eqb_neq in M. unfold ageValueOf. rewrite M.
    apply roundQ_nearest.
  - intros curves C. rewrite R in C.
    destruct (findEntry dataSource (ageValueOf age ageUnit) gender)
      as [entry|] eqn:F; [|discriminate C].
    apply findEntry_some in F. destruct F as [I [A G]].
    exists entry. repeat split; try assumption. congruence.
  - intro N. rewrite R.
    destruct (findEntry dataSource (ageValueOf age ageUnit) gender)
      as [entry|] eqn:F; [|reflexivity].
    apply findEntry_some in F. destruct F as [I [A G]].
    exfalso. apply (N entry I). auto.
Qed.

Lemma getZScoreCurves_lookup_age_witness :
  (("YEAR"%string <> "MONTH"%string
    \/ determineGrowthStage (52 # 5) "YEAR" <> "adolescent"%string)
   /\ strategyOf sampleZScoreData (determineGrowthStage (52 # 5) "YEAR")
      <> None
   /\ dataSourceOf sampleZScoreData (determineGrowthStage (52 # 5) "YEAR")
      = Some [adolescentEntry])
  /\ getZScoreCurves (Some sampleZScoreData) "BOY" (52 # 5) "YEAR" "bmi"
     = Return (Some bmiCurve)
  /\ exists key : Q,
       ("YEAR"%string <> "MONTH"%string ->
        exists n : Z,
          key = inject_Z n
          /\ inject_Z n - (1 # 2) <= 52 # 5 /\ 52 # 5 < inject_Z n + (1 # 2))
       /\ getZScoreCurves (Some sampleZScoreData) "BOY" (52 # 5) "YEAR" "bmi"
          = Return
              match findEntry [adolescentEntry] key "BOY" with
              | Some entry =>
                  curveOf (determineGrowthStage (52 # 5) "YEAR") "bmi" entry
              | None => None
              end.
Proof.
  assert (U : "YEAR"%string <> "MONTH"%string) by discriminate.
  assert (S : strategyOf sampleZScoreData
                (determineGrowthStage (52 # 5) "YEAR") <> None)
    by discriminate.
  split; [|split].
  - split; [left; exact U | split; [exact S | reflexivity]].
  - reflexivity.
  - destruct (getZScoreCurves_lookup_age
                sampleZScoreData "BOY" (52 # 5) "YEAR" "bmi" [adolescentEntry]
                (or_introl U) S eq_refl)
      as [key [_ [N [R _]]]].
    exists key. split; [exact N | exact R].
Defined.

(* ================================================================= *)
(** * Further properties of the engine *)

(** ** Nearest-record scans *)

(** The three [forEach] bodies that break ties have one shape: a strictly
    smaller distance replaces the record held, an equal distance replaces it
    when the key of the new record is larger. *)
Section TieScan.

Variable dist : Rec.t -> Q.
Variable key : Rec.t -> Q.
Variable step : Rec.t * Q -> Rec.t -> Rec.t * Q.
Hypothesis step_shape :
  forall c d x,
    step (c, d) x
    = if Qltb (dist x) d then (x, dist x)
      else if Qeq_bool (dist x) d
           then (if Qltb (key c) (key x) then (x, d) else (c, d))
           else (c, d).

Lemma tie_scan_optimal (l : list Rec.t) :
  forall (c : Rec.t) (d : Q),
    d == dist c ->
    let res := fold_left step l (c, d) in
    snd res == dist (fst res)
    /\ snd res <= d
    /\ (forall x, In x l -> snd res <= dist x)
    /\ (forall x, In x l -> dist x == snd res -> key x <= key (fst res))
    /\ (d == snd res -> key c <= key (fst res)).
Proof.
  induction l as [|x l IH]; intros c d D; cbn [fold_left].
  - cbn. repeat split; try lra; intros y [].
  - rewrite step_shape.
    destruct (Qltb (dist x) d) eqn:L1;
      [apply Qltb_lt in L1 | apply Qltb_ge in L1].
    + destruct (IH x (dist x) ltac:(reflexivity)) as [I1 [I2 [I3 [I4 I5]]]].
      cbv zeta in *.
      set (res := fold_left step l (x, dist x)) in *.
      split; [exact I1|]. split; [lra|]. split; [|split].
      * intros y [Y|Y]; [subst y; exact I2 | apply I3; exact Y].
      * intros y [Y|Y] T; [subst y; apply I5; lra | apply I4; assumption].
      * intro T. exfalso. lra.
    + destruct (Qeq_bool (dist x) d) eqn:L2;
        [apply Qeq_bool_iff in L2 | apply Qeq_bool_false in L2].
      * destruct (Qltb (key c) (key x)) eqn:L3;
          [apply Qltb_lt in L3 | apply Qltb_ge in L3].
        -- destruct (IH x d ltac:(lra)) as [I1 [I2 [I3 [I4 I5]]]].
           cbv zeta in *.
           set (res := fold_left step l (x, d)) in *.
           split; [exact I1|]. split; [exact I2|]. split; [|split].
           ++ intros y [Y|Y]; [subst y; lra | apply I3; exact Y].
           ++ intros y [Y|Y] T; [subst y; apply I5; lra | apply I4; assumption].
           ++ intro T. specialize (I5 T). lra.
        -- destruct (IH c d D) as [I1 [I2 [I3 [I4 I5]]]].
           cbv zeta in *.
           set (res := fold_left step l (c, d)) in *.
           split; [exact I1|]. split; [exact I2|]. split; [|split].
           ++ intros y [Y|Y]; [subst y; lra | apply I3; exact Y].
           ++ intros y [Y|Y] T; [subst y|apply I4; assumption].
              assert (K : key c <= key (fst res)) by (apply I5; lra). lra.
           ++ exact I5.
      * destruct (IH c d D) as [I1 [I2 [I3 [I4 I5]]]].
        cbv zeta in *.
        set (res := fold_left step l (c, d)) in *.
        split; [exact I1|]. split; [exact I2|]. split; [|split].
        -- intros y [Y|Y]; [subst y; lra | apply I3; exact Y].
        -- intros y [Y|Y] T; [subst y|apply I4; assumption].
           exfalso. apply L2. lra.
        -- exact I5.
Qed.

(** A scan of [first :: rest] that starts from [first]. *)
Lemma tie_scan_from_first (first : Rec.t) (rest : list Rec.t) :
  let r := fst (fold_left step (first :: rest) (first, dist first)) in
  In r (first :: rest)
  /\ forall x, In x (first :: rest) ->
               dist r <= dist x /\ (dist x == dist r -> key x <= key r).
Proof.
  destruct (tie_scan_optimal (first :: rest) first (dist first)
              ltac:(reflexivity)) as [I1 [_ [I3 [I4 _]]]].
  cbv zeta in *.
  set (res := fold_left step (first :: rest) (first, dist first)) in *.
  split.
  - assert (P : forall st x, fst (step st x) = x \/ fst (step st x) = fst st).
    { intros [c d] x. rewrite step_shape.
      repeat match goal with
             | |- context [if ?b then _ else _] => destruct b
             end; simpl; auto. }
    destruct (scan_picks step P (first :: rest) (first, dist first)) as [E|I];
      [fold res in E; rewrite E; left; reflexivity | exact I].
  - intros x X. split.
    + rewrite <- I1. apply I3. exact X.
    + intro T. apply I4; [exact X|]. rewrite I1. exact T.
Qed.

End TieScan.

(** X1: the record that [findMatchByAge] returns is, among the records of
    the requested gender, one whose age in months is nearest to the queried
    age, and among the nearest ones it has the largest age in months. *)
Theorem findMatchByAge_nearest :
  forall data gender age ageUnit r,
    findMatchByAge (Some data) gender age ageUnit = Return r ->
    forall x,
      In x data -> Rec.gender x = gender ->
      Qabs (monthsOf r - convertToMonths age ageUnit)
      <= Qabs (monthsOf x - convertToMonths age ageUnit)
      /\ (Qabs (monthsOf x - convertToMonths age ageUnit)
          == Qabs (monthsOf r - convertToMonths age ageUnit) ->
          monthsOf x <= monthsOf r).
Proof.
  intros data gender age ageUnit r R x X G.
  assert (Xc : In x (filterByGender data gender)).
  { unfold filterByGender. apply filter_In. split; [exact X|].
    apply String.eqb_eq. exact G. }
  unfold findMatchByAge in R.
  destruct data as [|d0 data]; [destruct X|].
  simpl (Nat.eqb _ _) in R. cbv iota in R.
  destruct (filterByGender (d0 :: data) gender) as [|first rest];
    [destruct Xc|].
  inversion R as [E]. clear R.
  pose proof (tie_scan_from_first
                (fun y => Qabs (monthsOf y - convertToMonths age ageUnit))
                monthsOf (ageStep (convertToMonths age ageUnit))
                ltac:(intros; reflexivity) first rest) as [_ O].
  cbv zeta in O. apply O. exact Xc.
Qed.

Lemma findMatchByAge_nearest_witness :
  (findMatchByAge (Some sampleData) "BOY" 6 "MONTH" = Return boy5
   /\ In boy8 sampleData /\ Rec.gender boy8 = "BOY"%string)
  /\ Qabs (monthsOf boy5 - convertToMonths 6 "MONTH")
     <= Qabs (monthsOf boy8 - convertToMonths 6 "MONTH")
  /\ (Qabs (monthsOf boy8 - convertToMonths 6 "MONTH")
      == Qabs (monthsOf boy5 - convertToMonths 6 "MONTH") ->
      monthsOf boy8 <= monthsOf boy5).
Proof.
  assert (I : In boy8 sampleData) by (simpl; auto).
  split.
  - split; [reflexivity | split; [exact I | reflexivity]].
  - apply (findMatchByAge_nearest sampleData "BOY" 6 "MONTH" boy5 eq_refl
             boy8 I eq_refl).
Defined.




(** ** Refinement inside the weight group *)









(** X4: [findClosestMatch] without an age is [findMatchByWeightAndHeight],
    for every state of the dataset, and with an age it ignores the height. *)
Theorem findClosestMatch_priorities :
  forall childData gender weight a height,
    findClosestMatch childData gender weight None height
    = findMatchByWeightAndHeight childData gender weight height
    /\ findClosestMatch childData gender weight (Some a) height
       = findClosestMatch childData gender weight (Some a) None.
Proof.
  intros childData gender weight a height.
  unfold findClosestMatch, findMatchByWeightAndHeight.
  destruct childData as [data|]; [|split; reflexivity].
  destruct (Nat.eqb (List.length data) 0); [split; reflexivity|].
  destruct (filterByGender data gender) as [|first rest];
    [split; reflexivity|].
  destruct height as [h|]; split; reflexivity.
Qed.

(* ================================================================= *)
(** ** Range and thresholds of the closeness score *)

Lemma closenessScore_NaN_or_percent (dev : Js.Number) :
  closenessScore dev = Js.NaN
  \/ exists n : Z,
       closenessScore dev = Js.Fin (inject_Z n) /\ (0 <= n <= 100)%Z.
Proof.
  destruct dev as [| | |x].
  - left. reflexivity.
  - right. exists 0%Z. split; [reflexivity | lia].
  - right. exists 100%Z. split; [reflexivity | lia].
  - right. destruct (closenessScore_finite x) as [e [P E]].
    destruct (closenessScore_range x) as [s [E' [L U]]].
    rewrite E in E'. inversion E' as [S]. rewrite E.
    exists (Qfloor ((if Qltb 0 e then e else 0) + (1 # 2))).
    split; [reflexivity|].
    unfold roundQ in S. rewrite <- S in L, U.
    split; rewrite Zle_Qle; assumption.
Qed.

Lemma deviationPercent_finite (x e : Q) :
  ~ e == 0 ->
  deviationPercent (Js.Fin x) (Js.Fin e) = Js.Fin (Qabs (x - e) / e * 100).
Proof.
  intro N. unfold deviationPercent. cbn [Js.sub Js.add Js.neg Js.abs Js.div].
  apply Qeq_bool_false in N. rewrite N. reflexivity.
Qed.

Lemma calculateCloseness_defined (w : Q) (inputHeight : Js.NumericInput)
    (record : Rec.t) :
  ~ Rec.weight record == 0 ->
  inputHeight = Js.Null
  \/ (exists h, inputHeight = Js.Num (Js.Fin h)) /\ ~ Rec.height record == 0 ->
  exists n : Z,
    calculateCloseness (Js.Fin w) inputHeight (Some record)
    = Js.Fin (inject_Z n)
    /\ (0 <= n <= 100)%Z.
Proof.
  intros Nw H.
  assert (F : exists d, calculateCloseness (Js.Fin w) inputHeight (Some record)
                        = closenessScore (Js.Fin d)).
  { unfold calculateCloseness.
    rewrite (deviationPercent_finite w _ Nw).
    destruct H as [H|[[h H] Nh]]; subst inputHeight.
    - eexists. reflexivity.
    - cbn [Js.toNumber]. rewrite (deviationPercent_finite h _ Nh).
      eexists. reflexivity. }
  destruct F as [d F]. rewrite F.
  destruct (closenessScore_NaN_or_percent (Js.Fin d)) as [E|E]; [|exact E].
  destruct (closenessScore_range d) as [s [E' _]]. congruence.
Qed.

(** X6: [calculateCloseness] returns [NaN] or a whole number from 0 to 100,
    whatever its arguments are; it returns such a number, not [NaN], when
    the weight is finite and the weight of the record is not zero and either
    no height is given or the height is finite and the height of the record
    is not zero. *)
Theorem calculateCloseness_is_percent :
  (forall inputWeight inputHeight ageMatchedRecord,
      calculateCloseness inputWeight inputHeight ageMatchedRecord = Js.NaN
      \/ exists n : Z,
           calculateCloseness inputWeight inputHeight ageMatchedRecord
           = Js.Fin (inject_Z n)
           /\ (0 <= n <= 100)%Z)
  /\ (forall (w : Q) inputHeight (record : Rec.t),
         ~ Rec.weight record == 0 ->
         inputHeight = Js.Null
         \/ (exists h, inputHeight = Js.Num (Js.Fin h))
            /\ ~ Rec.height record == 0 ->
         exists n : Z,
           calculateCloseness (Js.Fin w) inputHeight (Some record)
           = Js.Fin (inject_Z n)
           /\ (0 <= n <= 100)%Z).
Proof.
  split.
  - intros inputWeight inputHeight [record|].
    + unfold calculateCloseness. apply closenessScore_NaN_or_percent.
    + right. exists 0%Z. split; [reflexivity | lia].
  - intros w inputHeight record Nw H.
    apply calculateCloseness_defined; assumption.
Qed.

Lemma calculateCloseness_is_percent_witness :
  (~ Rec.weight boy8 == 0
   /\ (Js.Num (Js.Fin 60) = Js.Null
       \/ (exists h, Js.Num (Js.Fin 60) = Js.Num (Js.Fin h))
          /\ ~ Rec.height boy8 == 0))
  /\ exists n : Z,
       calculateCloseness (Js.Fin 8) (Js.Num (Js.Fin 60)) (Some boy8)
       = Js.Fin (inject_Z n)
       /\ (0 <= n <= 100)%Z.
Proof.
  assert (Nw : ~ Rec.weight boy8 == 0) by (intro E; discriminate E).
  assert (Nh : ~ Rec.height boy8 == 0) by (intro E; discriminate E).
  assert (H : Js.Num (Js.Fin 60) = Js.Null
              \/ (exists h, Js.Num (Js.Fin 60) = Js.Num (Js.Fin h))
                 /\ ~ Rec.height boy8 == 0)
    by (right; split; [exists 60; reflexivity | exact Nh]).
  split; [split; [exact Nw | exact H]|].
  apply (proj2 calculateCloseness_is_percent 8 (Js.Num (Js.Fin 60)) boy8 Nw H).
Defined.

Lemma closenessScore_within_ten (d : Q) :
  d <= 10 -> closenessScore (Js.Fin d) = Js.Fin 100.
Proof.
  intro L. unfold closenessScore, deviationToCloseness. cbn [Js.leb].
  apply Qle_bool_iff in L. rewrite L. reflexivity.
Qed.

Lemma percent_within (x e c : Q) :
  0 < e -> Qabs (x - e) <= e * c -> Qabs (x - e) / e * 100 <= c * 100.
Proof.
  intros P B.
  assert (D : Qabs (x - e) / e <= c).
  { apply Qle_shift_div_r; [exact P | lra]. }
  lra.
Qed.

(** X7: a weight within a tenth of the weight of the age-matched record
    scores 100 when no height is given, and so does a weight and height
    pair of which each is within a tenth of the value of the record. *)
Theorem calculateCloseness_full_score :
  forall (w : Q) (record : Rec.t),
    0 < Rec.weight record ->
    Qabs (w - Rec.weight record) <= Rec.weight record * (1 # 10) ->
    calculateCloseness (Js.Fin w) Js.Null (Some record) = Js.Fin 100
    /\ forall h,
         0 < Rec.height record ->
         Qabs (h - Rec.height record) <= Rec.height record * (1 # 10) ->
         calculateCloseness (Js.Fin w) (Js.Num (Js.Fin h)) (Some record)
         = Js.Fin 100.
Proof.
  intros w record Pw Bw.
  pose proof (percent_within _ _ _ Pw Bw) as Dw.
  assert (Nw : ~ Rec.weight record == 0) by lra.
  split.
  - unfold calculateCloseness. rewrite (deviationPercent_finite w _ Nw).
    apply closenessScore_within_ten. lra.
  - intros h Ph Bh.
    pose proof (percent_within _ _ _ Ph Bh) as Dh.
    assert (Nh : ~ Rec.height record == 0) by lra.
    unfold calculateCloseness. cbn [Js.toNumber].
    rewrite (deviationPercent_finite w _ Nw).
    rewrite (deviationPercent_finite h _ Nh).
    cbn [Js.add Js.div]. change (Qeq_bool 2 0) with false. cbv iota.
    apply closenessScore_within_ten.
    apply Qle_shift_div_r; lra.
Qed.

Lemma calculateCloseness_full_score_witness :
  (0 < Rec.weight boy8
   /\ Qabs (9 - Rec.weight boy8) <= Rec.weight boy8 * (1 # 10))
  /\ calculateCloseness (Js.Fin 9) Js.Null (Some boy8) = Js.Fin 100.
Proof.
  assert (P : 0 < Rec.weight boy8) by reflexivity.
  assert (B : Qabs (9 - Rec.weight boy8) <= Rec.weight boy8 * (1 # 10))
    by (cbn; discriminate).
  split; [split; [exact P | exact B]|].
  apply (proj1 (calculateCloseness_full_score 9 boy8 P B)).
Defined.






(* ================================================================= *)
(** ** Growth stages *)

Lemma determineGrowthStage_cases (age : Q) (ageUnit : string) :
  determineGrowthStage age ageUnit
  = if Qltb (convertToMonths age ageUnit) 24 then "infant"%string
    else if Qltb (convertToMonths age ageUnit) 120 then "child"%string
         else "adolescent"%string.
Proof.
  assert (D : forall m : Q, m / 12 == m * (1 # 12)) by (intro m; field).
  unfold determineGrowthStage.
  destruct (Qltb (convertToMonths age ageUnit) 24); [reflexivity|].
  destruct (Qltb (convertToMonths age ageUnit / 12) 10) eqn:A;
    destruct (Qltb (convertToMonths age ageUnit) 120) eqn:B; try reflexivity;
    exfalso;
    [ apply Qltb_lt in A; apply Qltb_ge in B
    | apply Qltb_ge in A; apply Qltb_lt in B ];
    rewrite D in A; lra.
Qed.

(** X14: [determineGrowthStage] depends on the age in months only: the
    stage is infant below 24 months, child from 24 months and below 120,
    adolescent from 120 months on; so an age in years and the same age in
    months have the same stage. *)
Theorem determineGrowthStage_by_months :
  forall (age : Q) (ageUnit : string),
    (determineGrowthStage age ageUnit = "infant"%string
     <-> convertToMonths age ageUnit < 24)
    /\ (determineGrowthStage age ageUnit = "child"%string
        <-> 24 <= convertToMonths age ageUnit
            /\ convertToMonths age ageUnit < 120)
    /\ (determineGrowthStage age ageUnit = "adolescent"%string
        <-> 120 <= convertToMonths age ageUnit)
    /\ determineGrowthStage (age * 12) "MONTH"
       = determineGrowthStage age "YEAR".
Proof.
  intros age ageUnit.
  pose proof determineGrowthStage_cases as S.
  split; [|split; [|split]].
  - rewrite S. q_cases; split; intro H; try discriminate H;
      first [assumption | reflexivity | exfalso; lra].
  - rewrite S. q_cases; split; intro H; try discriminate H;
      first [split; assumption | reflexivity | exfalso; lra].
  - rewrite S. q_cases; split; intro H; try discriminate H;
      first [assumption | reflexivity | exfalso; lra].
  - rewrite !S. cbn [convertToMonths String.eqb Ascii.eqb Bool.eqb].
    reflexivity.
Qed.

(** X15: the two stage functions agree on infancy; for an age that is not
    in months [calculateGrowthStage] answers CHILD from 2 years and below 6
    and ADOLESCENT from 6 years on, so it differs from
    [determineGrowthStage] from 6 years and below 10; for an age in months
    it never answers CHILD. *)
Theorem calculateGrowthStage_against_determineGrowthStage :
  forall (age : Q) (unit : string),
    (calculateGrowthStage age unit = "INFANT"%string
     <-> determineGrowthStage age unit = "infant"%string)
    /\ (unit <> "MONTH"%string ->
        (calculateGrowthStage age unit = "CHILD"%string
         <-> 2 <= age /\ age < 6)
        /\ (calculateGrowthStage age unit = "ADOLESCENT"%string
            <-> 6 <= age)
        /\ (6 <= age /\ age < 10 ->
            determineGrowthStage age unit = "child"%string))
    /\ (unit = "MONTH"%string ->
        calculateGrowthStage age unit <> "CHILD"%string).
Proof.
  intros age unit. split; [|split].
  - unfold calculateGrowthStage, determineGrowthStage.
    destruct (Qltb (convertToMonths age unit) 24).
    + split; reflexivity.
    + split; intro H.
      * destruct (Qle_bool 6 age); discriminate H.
      * destruct (Qltb (convertToMonths age unit / 12) 10); discriminate H.
  - intro N. apply String.eqb_neq in N.
    assert (M : convertToMonths age unit = age * 12)
      by (unfold convertToMonths; rewrite N; reflexivity).
    split; [|split].
    + unfold calculateGrowthStage. rewrite M.
      q_cases; split; intro Hyp; try discriminate Hyp;
        first [split; lra | reflexivity | exfalso; lra].
    + unfold calculateGrowthStage. rewrite M.
      q_cases; split; intro Hyp; try discriminate Hyp;
        first [assumption | reflexivity | exfalso; lra].
    + intros [L U]. rewrite determineGrowthStage_cases, M.
      q_cases; first [reflexivity | exfalso; lra].
  - intro E. subst unit. unfold calculateGrowthStage, convertToMonths.
    cbn [String.eqb Ascii.eqb Bool.eqb].
    q_cases; try discriminate. exfalso. lra.
Qed.

Lemma growth_stages_differ_witness :
  ("YEAR"%string <> "MONTH"%string /\ 6 <= 7 /\ 7 < 10)
  /\ calculateGrowthStage 7 "YEAR" = "ADOLESCENT"%string
  /\ determineGrowthStage 7 "YEAR" = "child"%string.
Proof.
  assert (U : "YEAR"%string <> "MONTH"%string) by discriminate.
  assert (B : 6 <= 7 /\ 7 < 10) by (split; [discriminate | reflexivity]).
  split; [split; [exact U | exact B]|].
  destruct (proj1 (proj2 (calculateGrowthStage_against_determineGrowthStage
                            7 "YEAR")) U) as [_ [A D]].
  split; [apply A; exact (proj1 B) | apply D; exact B].
Defined.

(* ================================================================= *)
(** ** Median height and curves *)

Lemma roundQ_eq (x y : Q) : x == y -> roundQ x = roundQ y.
Proof.
  intro E. unfold roundQ. rewrite E. reflexivity.
Qed.

(** X10: [getMedianHeightForAge] reads the age in years whatever the unit:
    an age in years and the same age in months give the same result. *)
Theorem getMedianHeightForAge_unit_independent :
  forall zScoreData gender (years : Q) (unit : string),
    unit <> "MONTH"%string ->
    getMedianHeightForAge zScoreData gender (years * 12) "MONTH"
    = getMedianHeightForAge zScoreData gender years unit.
Proof.
  intros zScoreData gender years unit N.
  apply String.eqb_neq in N.
  unfold getMedianHeightForAge. rewrite N.
  cbn [String.eqb Ascii.eqb Bool.eqb].
  assert (E : roundQ (years * 12 / 12) = roundQ years)
    by (apply roundQ_eq; field).
  rewrite E. reflexivity.
Qed.

Lemma getMedianHeightForAge_unit_witness :
  "YEAR"%string <> "MONTH"%string
  /\ getMedianHeightForAge (Some sampleZScoreData) "BOY" (10 * 12) "MONTH"
     = getMedianHeightForAge (Some sampleZScoreData) "BOY" 10 "YEAR".
Proof.
  assert (U : "YEAR"%string <> "MONTH"%string) by discriminate.
  split; [exact U|].
  apply (getMedianHeightForAge_unit_independent
           (Some sampleZScoreData) "BOY" 10 "YEAR" U).
Defined.

(** X11: a median height that [getMedianHeightForAge] returns is the one of
    an entry of the first array of the adolescent partition that has the
    requested gender and whose age is the whole number nearest to the age in
    years (halves going up), whatever the growth stage of the age is. *)
Theorem getMedianHeightForAge_sound :
  forall z gender age ageUnit (m : Q),
    getMedianHeightForAge (Some z) gender age ageUnit = Some m ->
    exists entries others entry (n : Z),
      adolescent z = Some (entries :: others)
      /\ In entry entries
      /\ ZEntry.gender entry = gender
      /\ ZEntry.medianHeight entry = Some m
      /\ ZEntry.age entry == inject_Z n
      /\ let years := if String.eqb ageUnit "MONTH" then age / 12 else age in
         inject_Z n - (1 # 2) <= years /\ years < inject_Z n + (1 # 2).
Proof.
  intros z gender age ageUnit m R. unfold getMedianHeightForAge in R.
  destruct (adolescent z) as [[|entries others]|]; try discriminate R.
  set (years := if String.eqb ageUnit "MONTH" then age / 12 else age) in *.
  destruct (find _ entries) as [entry|] eqn:F; [|discriminate R].
  apply find_some in F. destruct F as [I B].
  apply andb_true_iff in B. destruct B as [A G].
  apply Qeq_bool_iff in A. apply String.eqb_eq in G.
  destruct (roundQ_nearest years) as [n [E Bn]].
  exists entries, others, entry, n.
  rewrite E in A. repeat split; try assumption; apply Bn.
Qed.

Lemma getMedianHeightForAge_sound_witness :
  getMedianHeightForAge (Some sampleZScoreData) "BOY" 124 "MONTH"
  = Some (1377 # 10)
  /\ exists entries others entry (n : Z),
       adolescent sampleZScoreData = Some (entries :: others)
       /\ In entry entries
       /\ ZEntry.gender entry = "BOY"%string
       /\ ZEntry.medianHeight entry = Some (1377 # 10)
       /\ ZEntry.age entry == inject_Z n
       /\ let years :=
            if String.eqb "MONTH" "MONTH" then 124 / 12 else 124 in
          inject_Z n - (1 # 2) <= years /\ years < inject_Z n + (1 # 2).
Proof.
  split; [reflexivity|].
  apply (getMedianHeightForAge_sound
           sampleZScoreData "BOY" 124 "MONTH" (1377 # 10) eq_refl).
Defined.

(** X12: in the adolescent stage the curves that [getZScoreCurves] returns
    do not depend on the requested metric (they are the BMI curves); in the
    other stages a metric other than weight and height never gives curves. *)
Theorem getZScoreCurves_metric :
  forall zScoreData gender age ageUnit,
    (determineGrowthStage age ageUnit = "adolescent"%string ->
     forall metric1 metric2,
       getZScoreCurves zScoreData gender age ageUnit metric1
       = getZScoreCurves zScoreData gender age ageUnit metric2)
    /\ (determineGrowthStage age ageUnit <> "adolescent"%string ->
        forall metric curves,
          metric <> "weight"%string -> metric <> "height"%string ->
          getZScoreCurves zScoreData gender age ageUnit metric
          <> Return (Some curves)).
Proof.
  intros zScoreData gender age ageUnit. split.
  - intros S metric1 metric2. unfold getZScoreCurves, curveOf.
    rewrite S. reflexivity.
  - intros S metric curves Nw Nh R.
    apply String.eqb_neq in S, Nw, Nh.
    unfold getZScoreCurves, curveOf in R. rewrite S, Nw, Nh in R.
    destruct zScoreData as [z|]; [|discriminate R].
    destruct (strategyOf z _); [|discriminate R].
    destruct (dataSourceOf z _); [|discriminate R].
    destruct (findEntry _ _ _); discriminate R.
Qed.

Lemma getZScoreCurves_metric_witness :
  determineGrowthStage 10 "YEAR" = "adolescent"%string
  /\ getZScoreCurves (Some sampleZScoreData) "BOY" 10 "YEAR" "weight"
     = getZScoreCurves (Some sampleZScoreData) "BOY" 10 "YEAR" "bmi".
Proof.
  split; [reflexivity|].
  apply (proj1 (getZScoreCurves_metric (Some sampleZScoreData) "BOY" 10 "YEAR")
           eq_refl "weight"%string "bmi"%string).
Defined.


(* ================================================================= *)
(** ** Sorting by a key *)

Section SortByKey.

Variable A : Type.
Variable key : A -> Q.

Let cmp : A -> A -> Q := fun a b => key a - key b.
Let leK : A -> A -> Prop := fun a b => key a <= key b.

Lemma insertSorted_perm (x : A) (l : list A) :
  Permutation (insertSorted cmp x l) (x :: l).
Proof.
  induction l as [|y l IH]; simpl; [apply Permutation_refl|].
  destruct (Qltb 0 (cmp x y)); [|apply Permutation_refl].
  eapply Permutation_trans; [apply perm_skip; exact IH | apply perm_swap].
Qed.

Lemma arraySort_perm (l : list A) : Permutation (arraySort cmp l) l.
Proof.
  induction l as [|x l IH]; simpl; [apply Permutation_refl|].
  eapply Permutation_trans; [apply insertSorted_perm|].
  apply perm_skip. exact IH.
Qed.

Lemma insertSorted_sorted (x : A) (l : list A) :
  StronglySorted leK l -> StronglySorted leK (insertSorted cmp x l).
Proof.
  induction l as [|y l IH]; intro S; simpl.
  - constructor; constructor.
  - inversion S as [|y' l' S' F]. subst y' l'.
    destruct (Qltb 0 (cmp x y)) eqn:C;
      [apply Qltb_lt in C | apply Qltb_ge in C]; unfold cmp in C.
    + constructor; [apply IH; exact S'|].
      apply (Permutation_Forall (Permutation_sym (insertSorted_perm x l))).
      constructor; [unfold leK; lra | exact F].
    + constructor; [exact S|].
      constructor; [unfold leK; lra|].
      eapply Forall_impl; [|exact F].
      intros z Z. unfold leK in *. lra.
Qed.

Lemma arraySort_sorted (l : list A) : StronglySorted leK (arraySort cmp l).
Proof.
  induction l as [|x l IH]; simpl; [constructor|].
  apply insertSorted_sorted. exact IH.
Qed.

(** A list that is in order already is left as it is. *)
Lemma arraySort_of_sorted (l : list A) :
  StronglySorted leK l -> arraySort cmp l = l.
Proof.
  induction l as [|x l IH]; intro S; simpl; [reflexivity|].
  inversion S as [|x' l' S' F]. subst x' l'.
  rewrite (IH S'). destruct l as [|y l]; [reflexivity|]. simpl.
  inversion F as [|y' l' L _]. subst y' l'. unfold leK in L.
  assert (C : Qltb 0 (cmp x y) = false)
    by (apply Qltb_ge; unfold cmp; lra).
  rewrite C. reflexivity.
Qed.

End SortByKey.

(* ================================================================= *)
(** ** The options of the age select *)

Section UniqueAgesProperties.

Variable numberToString : Q -> string.

Let optionOf (record : Rec.t) : AgeOption.t :=
  AgeOption.mk (ageKey numberToString record) (Rec.age record)
               (Rec.ageUnit record)
               (formatAge numberToString (Rec.age record)
                          (Rec.ageUnit record)).

Lemma mapHas_iff (ageMap : list (string * AgeOption.t)) (k : string) :
  mapHas ageMap k = true <-> In k (map fst ageMap).
Proof.
  unfold mapHas. rewrite existsb_exists. rewrite in_map_iff. split.
  - intros [e [I E]]. apply String.eqb_eq in E. exists e. auto.
  - intros [e [E I]]. exists e. split; [exact I|].
    apply String.eqb_eq. exact E.
Qed.

Lemma addAge_cases (ageMap : list (string * AgeOption.t)) (record : Rec.t) :
  (In (ageKey numberToString record) (map fst ageMap)
   /\ addAge numberToString ageMap record = ageMap)
  \/ (~ In (ageKey numberToString record) (map fst ageMap)
      /\ addAge numberToString ageMap record
         = (ageMap ++ [(ageKey numberToString record, optionOf record)])%list).
Proof.
  unfold addAge. cbv zeta.
  destruct (mapHas ageMap (ageKey numberToString record)) eqn:H; simpl.
  - left. split; [apply mapHas_iff; exact H | reflexivity].
  - right. split; [|reflexivity].
    intro I. apply mapHas_iff in I. congruence.
Qed.

Lemma ageMap_invariant (data : list Rec.t) :
  forall ageMap : list (string * AgeOption.t),
    NoDup (map fst ageMap) ->
    (forall e, In e ageMap -> AgeOption.value (snd e) = fst e) ->
    let final := fold_left (addAge numberToString) data ageMap in
    NoDup (map fst final)
    /\ (forall e, In e final -> AgeOption.value (snd e) = fst e)
    /\ (forall e, In e final ->
                  In e ageMap
                  \/ exists record, In record data
                                    /\ e = (ageKey numberToString record,
                                            optionOf record))
    /\ (forall k, In k (map fst ageMap) -> In k (map fst final))
    /\ (forall record, In record data ->
                       In (ageKey numberToString record) (map fst final)).
Proof.
  induction data as [|record data IH]; intros ageMap N V; cbn [fold_left].
  - cbv zeta. repeat split; auto. intros record [].
  - destruct (addAge_cases ageMap record) as [[I E]|[I E]]; rewrite E.
    + destruct (IH ageMap N V) as [H1 [H2 [H3 [H4 H5]]]]. cbv zeta in *.
      repeat split; auto.
      * intros e X. destruct (H3 e X) as [Y|[r [Y Z]]]; [left; exact Y|].
        right. exists r. split; [right; exact Y | exact Z].
      * intros r [R|R]; [subst r; apply H4; exact I | apply H5; exact R].
    + assert (N' : NoDup (map fst (ageMap
                     ++ [(ageKey numberToString record, optionOf record)]))).
      { rewrite map_app. simpl.
        apply (Permutation_NoDup
                 (l := ageKey numberToString record :: map fst ageMap)).
        - apply Permutation_cons_append.
        - constructor; assumption. }
      assert (V' : forall e,
                 In e (ageMap
                       ++ [(ageKey numberToString record, optionOf record)]) ->
                 AgeOption.value (snd e) = fst e).
      { intros e X. apply in_app_or in X. destruct X as [X|[X|[]]].
        - apply V. exact X.
        - subst e. reflexivity. }
      destruct (IH _ N' V') as [H1 [H2 [H3 [H4 H5]]]]. cbv zeta in *.
      repeat split; auto.
      * intros e X. destruct (H3 e X) as [Y|[r [Y Z]]].
        -- apply in_app_or in Y. destruct Y as [Y|[Y|[]]]; [left; exact Y|].
           right. exists record. split; [left; reflexivity | auto].
        -- right. exists r. split; [right; exact Y | exact Z].
      * intros k K. apply H4. rewrite map_app. apply in_or_app. left. exact K.
      * intros r [R|R]; [subst r|apply H5; exact R].
        apply H4. rewrite map_app. apply in_or_app. right. left. reflexivity.
Qed.

(** X16: the options that [getUniqueAges] returns are in non-decreasing
    order of their age in months. *)
Theorem getUniqueAges_sorted :
  forall childData,
    StronglySorted (fun a b => optionMonths a <= optionMonths b)
                   (getUniqueAges numberToString childData).
Proof.
  intros [data|]; [|constructor].
  unfold getUniqueAges. cbv zeta.
  exact (arraySort_sorted AgeOption.t optionMonths _).
Qed.

(** X17: [getUniqueAges] returns one option for each age key
    (['age-unit']) of the dataset: no two options have the same [value],
    every record of the dataset has the option of its key in the result, and
    every option of the result is built from a record of the dataset. *)
Theorem getUniqueAges_one_option_per_key :
  forall data,
    let result := getUniqueAges numberToString (Some data) in
    NoDup (map AgeOption.value result)
    /\ (forall record,
          In record data ->
          exists o, In o result
                    /\ AgeOption.value o = ageKey numberToString record)
    /\ (forall o,
          In o result ->
          exists record,
            In record data
            /\ o = AgeOption.mk (ageKey numberToString record)
                                (Rec.age record) (Rec.ageUnit record)
                                (formatAge numberToString (Rec.age record)
                                           (Rec.ageUnit record))).
Proof.
  intro data. cbv zeta. unfold getUniqueAges. cbv zeta.
  destruct (ageMap_invariant data [] (NoDup_nil _) ltac:(intros e []))
    as [H1 [H2 [H3 [_ H5]]]]. cbv zeta in *.
  set (final := fold_left (addAge numberToString) data []) in *.
  pose proof (arraySort_perm AgeOption.t optionMonths (map snd final)) as P.
  assert (VK : map AgeOption.value (map snd final) = map fst final).
  { rewrite map_map. apply map_ext_in. intros e X. apply H2. exact X. }
  split; [|split].
  - apply (Permutation_NoDup
             (l := map AgeOption.value (map snd final))).
    + apply Permutation_map. apply Permutation_sym. exact P.
    + rewrite VK. exact H1.
  - intros record R. specialize (H5 record R).
    apply in_map_iff in H5. destruct H5 as [e [K X]].
    exists (snd e). split.
    + apply (Permutation_in _ (Permutation_sym P)).
      apply in_map. exact X.
    + rewrite (H2 e X). exact K.
  - intros o O. apply (Permutation_in _ P) in O.
    apply in_map_iff in O. destruct O as [e [E X]].
    destruct (H3 e X) as [[]|[record [R Z]]].
    exists record. split; [exact R|]. subst e o. reflexivity.
Qed.

End UniqueAgesProperties.

(* ================================================================= *)
(** ** The chart data of a gender *)

(** X18: [getChartDataForGender] returns the records of the requested gender,
    each exactly as often as the dataset holds it, with its age in years as
    [normalizedAge], in non-decreasing order of that age; when the records
    of the gender are in that order in the dataset already, they keep the
    order of the dataset. *)
Theorem getChartDataForGender_sorted_records :
  forall data gender,
    let result := getChartDataForGender (Some data) gender in
    StronglySorted
      (fun a b => ChartPoint.normalizedAge a <= ChartPoint.normalizedAge b)
      result
    /\ Permutation (map ChartPoint.record result) (filterByGender data gender)
    /\ (forall p,
          In p result ->
          Rec.gender (ChartPoint.record p) = gender
          /\ ChartPoint.normalizedAge p * 12 == monthsOf (ChartPoint.record p))
    /\ (StronglySorted (fun a b => monthsOf a <= monthsOf b)
                       (filterByGender data gender) ->
        map ChartPoint.record result = filterByGender data gender).
Proof.
  intros data gender. cbv zeta. unfold getChartDataForGender. cbv zeta.
  fold (filterByGender data gender).
  set (point := fun d : Rec.t =>
                  ChartPoint.mk
                    d (convertToMonths (Rec.age d) (Rec.ageUnit d) / 12)).
  set (points := map point (filterByGender data gender)).
  pose proof (arraySort_perm ChartPoint.t ChartPoint.normalizedAge points)
    as P.
  assert (R : map ChartPoint.record points = filterByGender data gender).
  { unfold points. rewrite map_map. apply map_id. }
  split; [|split; [|split]].
  - exact (arraySort_sorted ChartPoint.t ChartPoint.normalizedAge points).
  - rewrite <- R. apply Permutation_map. exact P.
  - intros p I. apply (Permutation_in _ P) in I.
    unfold points in I. apply in_map_iff in I. destruct I as [d [E I]].
    subst p. unfold filterByGender in I. apply filter_In in I.
    destruct I as [_ G]. apply String.eqb_eq in G.
    split; [exact G|]. unfold point, monthsOf. cbn. field.
  - intro S.
    assert (S' : StronglySorted
                   (fun a b => ChartPoint.normalizedAge a
                               <= ChartPoint.normalizedAge b) points).
    { unfold points. clear P R.
      induction (filterByGender data gender) as [|d l IH]; simpl;
        [constructor|].
      inversion S as [|d' l' Sl F]. subst d' l'.
      constructor; [apply IH; exact Sl|].
      apply Forall_forall. intros p I. apply in_map_iff in I.
      destruct I as [d' [E I]]. subst p.
      rewrite Forall_forall in F. specialize (F d' I).
      unfold point, monthsOf in *. cbn.
      assert (D : forall m : Q, m / 12 == m * (1 # 12)) by (intro m; field).
      rewrite !D. lra. }
    rewrite (arraySort_of_sorted ChartPoint.t ChartPoint.normalizedAge
               points S').
    exact R.
Qed.

Lemma getChartDataForGender_witness :
  StronglySorted (fun a b => monthsOf a <= monthsOf b)
                 (filterByGender sampleData "BOY")
  /\ map ChartPoint.record (getChartDataForGender (Some sampleData) "BOY")
     = filterByGender sampleData "BOY".
Proof.
  assert (S : StronglySorted (fun a b => monthsOf a <= monthsOf b)
                             (filterByGender sampleData "BOY")).
  { repeat constructor; cbn; discriminate. }
  split; [exact S|].
  apply (proj2 (proj2 (proj2 (getChartDataForGender_sorted_records
                                sampleData "BOY"))) S).
Defined.

Example getChartDataForGender_reorders :
  map ChartPoint.record
      (getChartDataForGender (Some [boy8; girl6; boy4; boy5]) "BOY")
  = [boy4; boy5; boy8]
  /\ getChartDataForGender None "BOY" = [].
Proof. split; reflexivity. Qed.

(* ================================================================= *)
(** ** Translation lookup *)

Lemma splitDot_nonempty (key : string) : I18n.splitDot key <> [].
Proof.
  destruct key as [|c rest]; simpl; [discriminate|].
  destruct (Ascii.eqb c "."%char); [discriminate|].
  destruct (I18n.splitDot rest); discriminate.
Qed.

Lemma walkFallback_found (keys : list string) :
  forall (j r : I18n.Json),
    I18n.lookupPath j keys = Some r ->
    I18n.walkFallback (I18n.VJson j) keys = Some (I18n.VJson r).
Proof.
  induction keys as [|k rest IH]; intros j r L; simpl in *.
  - congruence.
  - destruct j as [| | | |fields]; try discriminate L.
    destruct (I18n.ownProperty fields k) as [inner|]; [|discriminate L].
    apply IH. exact L.
Qed.

Lemma walkFallback_missing (keys : list string) :
  forall j : I18n.Json,
    (forall k, In k keys -> I18n.inObjectPrototype k = false) ->
    I18n.lookupPath j keys = None ->
    I18n.walkFallback (I18n.VJson j) keys = None.
Proof.
  induction keys as [|k rest IH]; intros j P L; simpl in *.
  - discriminate L.
  - destruct j as [| | | |fields]; try reflexivity.
    destruct (I18n.ownProperty fields k) as [inner|].
    + apply IH; [|exact L]. intros k' K. apply P. right. exact K.
    + rewrite (P k (or_introl eq_refl)). reflexivity.
Qed.

Lemma walk_found (key : string) (keys : list string) (fallback : I18n.Value)
    (remaining : list string) :
  forall (j r : I18n.Json),
    I18n.lookupPath j remaining = Some r ->
    I18n.walk key keys fallback (I18n.VJson j) remaining
    = if I18n.truthy (I18n.VJson r) then I18n.VJson r
      else I18n.VJson (I18n.JString key).
Proof.
  induction remaining as [|k rest IH]; intros j r L; simpl in *.
  - inversion L. reflexivity.
  - destruct j as [| | | |fields]; try discriminate L.
    destruct (I18n.ownProperty fields k) as [inner|]; [|discriminate L].
    apply IH. exact L.
Qed.

Lemma walk_missing (key : string) (keys : list string) (fallback : I18n.Value)
    (remaining : list string) :
  forall j : I18n.Json,
    (forall k, In k remaining -> I18n.inObjectPrototype k = false) ->
    I18n.lookupPath j remaining = None ->
    I18n.walk key keys fallback (I18n.VJson j) remaining
    = match I18n.walkFallback fallback keys with
      | Some found => found
      | None => I18n.VJson (I18n.JString key)
      end.
Proof.
  induction remaining as [|k rest IH]; intros j P L; simpl in *.
  - discriminate L.
  - destruct j as [| | | |fields]; try reflexivity.
    destruct (I18n.ownProperty fields k) as [inner|].
    + apply IH; [|exact L]. intros k' K. apply P. right. exact K.
    + rewrite (P k (or_introl eq_refl)). reflexivity.
Qed.

(** X19: when the segments of the key lead, through own keys of nested
    objects of the translations, to a value, [t] returns that value if it is
    truthy (so a text that is not empty is returned as it is) and the key
    itself if it is falsy; the fallback plays no part. *)
Theorem t_returns_translation :
  forall (translations r : I18n.Json) (key : string) (fallback : I18n.Value),
    I18n.lookupPath translations (I18n.splitDot key) = Some r ->
    I18n.t (I18n.VJson translations) key fallback
    = if I18n.truthy (I18n.VJson r) then I18n.VJson r
      else I18n.VJson (I18n.JString key).
Proof.
  intros translations r key fallback L. unfold I18n.t. cbv zeta.
  apply walk_found. exact L.
Qed.

Lemma t_returns_translation_witness :
  I18n.lookupPath sampleTranslations (I18n.splitDot "form.gender")
  = Some (I18n.JString "Gender")
  /\ I18n.t (I18n.VJson sampleTranslations) "form.gender" I18n.emptyObject
     = I18n.VJson (I18n.JString "Gender").
Proof.
  split; [reflexivity|].
  apply (t_returns_translation sampleTranslations (I18n.JString "Gender")
           "form.gender" I18n.emptyObject eq_refl).
Defined.

(** X20: when the segments of the key do not lead to a value in the
    translations, and none of them is the name of a property that every
    object inherits, [t] returns what they lead to in the fallback, falsy or
    not, and the key itself when they lead to nothing there either; with the
    default fallback it returns the key. *)
Theorem t_falls_back_to_key :
  forall (translations fallback : I18n.Json) (key : string),
    (forall k, In k (I18n.splitDot key) -> I18n.inObjectPrototype k = false) ->
    I18n.lookupPath translations (I18n.splitDot key) = None ->
    I18n.t (I18n.VJson translations) key (I18n.VJson fallback)
    = match I18n.lookupPath fallback (I18n.splitDot key) with
      | Some r => I18n.VJson r
      | None => I18n.VJson (I18n.JString key)
      end
    /\ I18n.t (I18n.VJson translations) key I18n.emptyObject
       = I18n.VJson (I18n.JString key).
Proof.
  intros translations fallback key P L. unfold I18n.t. cbv zeta. split.
  - rewrite (walk_missing _ _ _ _ _ P L).
    destruct (I18n.lookupPath fallback (I18n.splitDot key)) as [r|] eqn:F.
    + rewrite (walkFallback_found _ _ _ F). reflexivity.
    + rewrite (walkFallback_missing _ _ P F). reflexivity.
  - rewrite (walk_missing _ _ _ _ _ P L).
    unfold I18n.emptyObject.
    rewrite (walkFallback_missing _ (I18n.JObject []) P); [reflexivity|].
    pose proof (splitDot_nonempty key) as N.
    destruct (I18n.splitDot key); [congruence | reflexivity].
Qed.

Lemma t_falls_back_to_key_witness :
  ((forall k, In k (I18n.splitDot "form.age") ->
              I18n.inObjectPrototype k = false)
   /\ I18n.lookupPath sampleTranslations (I18n.splitDot "form.age") = None)
  /\ I18n.t (I18n.VJson sampleTranslations) "form.age" I18n.emptyObject
     = I18n.VJson (I18n.JString "form.age").
Proof.
  assert (P : forall k, In k (I18n.splitDot "form.age") ->
                        I18n.inObjectPrototype k = false).
  { intros k [K|[K|[]]]; subst k; reflexivity. }
  split; [split; [exact P | reflexivity]|].
  apply (proj2 (t_falls_back_to_key sampleTranslations (I18n.JObject [])
                  "form.age" P eq_refl)).
Defined.

(** What the premise on inherited names excludes, and an empty text. *)
Example t_edge_cases :
  I18n.t (I18n.VJson sampleTranslations) "toString" I18n.emptyObject
  = I18n.VFunction "toString"
  /\ I18n.t (I18n.VJson sampleTranslations) "form.note" I18n.emptyObject
     = I18n.VJson (I18n.JString "form.note")
  /\ I18n.t (I18n.VJson sampleTranslations) "form" I18n.emptyObject
     = I18n.VJson
         (I18n.JObject [ ("gender"%string, I18n.JString "Gender");
                         ("note"%string, I18n.JString "") ]).
Proof. repeat split. Qed.

(* ================================================================= *)
(** ** Z-score labels *)

Lemma zScoreLabelKey_of_class (metric : string) (zScore : Js.Number) :
  zScoreLabelKey metric zScore
  = nth_error (labelKeysOf metric) (zScoreClass zScore).
Proof.
  unfold zScoreLabelKey, labelKeysOf, zScoreClass.
  destruct (String.eqb metric "weight");
    [|destruct (String.eqb metric "height");
      [|destruct (String.eqb metric "bmi")]];
    repeat match goal with
           | |- context [if Js.ltb ?a ?b then _ else _] =>
               destruct (Js.ltb a b)
           end;
    reflexivity.
Qed.

Lemma results_key_segments (metric name : string) :
  In name (labelKeysOf metric) ->
  I18n.splitDot (String.append "results." name) = ["results"%string; name].
Proof.
  unfold labelKeysOf.
  destruct (String.eqb metric "weight");
    [|destruct (String.eqb metric "height");
      [|destruct (String.eqb metric "bmi")]];
    simpl In; intro I;
    repeat (destruct I as [I|I]; [subst name; reflexivity|]);
    destruct I.
Qed.

(** X21: for the metrics weight, height and bmi, [getZScoreLabel] returns
    the text that the translations hold under [results] for the label key of
    the z-score, when that text is there and is not empty. *)
Theorem getZScoreLabel_translated :
  forall (translations : I18n.Json) metric zScore name text,
    zScoreLabelKey metric zScore = Some name ->
    I18n.lookupPath translations ["results"%string; name]
    = Some (I18n.JString text) ->
    text <> ""%string ->
    getZScoreLabel (I18n.VJson translations) metric zScore
    = I18n.VJson (I18n.JString text).
Proof.
  intros translations metric zScore name text K L N.
  unfold getZScoreLabel. rewrite K. cbv zeta. unfold I18n.t. cbv zeta.
  assert (I : In name (labelKeysOf metric)).
  { rewrite zScoreLabelKey_of_class in K. eapply nth_error_In. exact K. }
  rewrite (results_key_segments metric name I).
  rewrite (walk_found _ _ _ _ _ _ L).
  cbn [I18n.truthy]. apply String.eqb_neq in N. rewrite N. reflexivity.
Qed.

Lemma getZScoreLabel_translated_witness :
  (zScoreLabelKey "weight" (Js.Fin (1 # 2)) = Some "weightNormal"%string
   /\ I18n.lookupPath sampleTranslations ["results"%string; "weightNormal"%string]
      = Some (I18n.JString "Normal weight")
   /\ "Normal weight"%string <> ""%string)
  /\ getZScoreLabel (I18n.VJson sampleTranslations) "weight" (Js.Fin (1 # 2))
     = I18n.VJson (I18n.JString "Normal weight").
Proof.
  assert (N : "Normal weight"%string <> ""%string) by discriminate.
  split; [split; [reflexivity | split; [reflexivity | exact N]]|].
  apply (getZScoreLabel_translated sampleTranslations "weight" (Js.Fin (1 # 2))
           "weightNormal" "Normal weight" eq_refl eq_refl N).
Defined.

(** X22: the label key of [getZScoreLabel] is the key of its metric for the
    class of the z-score, of five classes with bounds -2, -1, 1 and 2; a
    larger z-score never has a lower class, and a z-score that is [NaN] has
    the highest class. *)
Theorem zScore_classes :
  (forall metric zScore,
      zScoreLabelKey metric zScore
      = nth_error (labelKeysOf metric) (zScoreClass zScore))
  /\ (forall z1 z2,
         Js.leb z1 z2 = true -> (zScoreClass z1 <= zScoreClass z2)%nat)
  /\ (forall q : Q,
         (zScoreClass (Js.Fin q) = 0%nat <-> q < -2)
         /\ (zScoreClass (Js.Fin q) = 2%nat <-> -1 <= q /\ q < 1)
         /\ (zScoreClass (Js.Fin q) = 4%nat <-> 2 <= q))
  /\ zScoreClass Js.NaN = 4%nat.
Proof.
  split; [exact zScoreLabelKey_of_class|]. split; [|split; [|reflexivity]].
  - intros [| | |x] [| | |y] L; try discriminate L;
      unfold zScoreClass; cbn [Js.ltb]; try lia;
      try (cbn [Js.leb] in L; apply Qle_bool_iff in L);
      q_cases; first [lia | exfalso; lra].
  - intro q. unfold zScoreClass. cbn [Js.ltb].
    split; [|split]; q_cases; split; intro Hyp;
      first [ discriminate Hyp | reflexivity | assumption
            | split; assumption | exfalso; lra
            | exfalso; destruct Hyp; lra ].
Qed.

Lemma zScore_classes_witness :
  Js.leb (Js.Fin (-3 # 2)) (Js.Fin (3 # 2)) = true
  /\ (zScoreClass (Js.Fin (-3 # 2)) <= zScoreClass (Js.Fin (3 # 2)))%nat.
Proof.
  split; [reflexivity|].
  apply (proj1 (proj2 zScore_classes) (Js.Fin (-3 # 2)) (Js.Fin (3 # 2))).
  reflexivity.
Defined.

(* ================================================================= *)
(** ** Body mass index *)

Lemma calculateBMI_finite (w h : Q) :
  ~ h == 0 ->
  calculateBMI (Js.Fin w) (Js.Fin h)
  = Js.Fin (w / (h / 100 * (h / 100))).
Proof.
  intro N. unfold calculateBMI. cbv zeta. cbn [Js.div Js.mul].
  change (Qeq_bool 100 0) with false. cbv iota. cbn [Js.mul Js.div].
  assert (M : Qeq_bool (h / 100 * (h / 100)) 0 = false).
  { apply Qeq_bool_false. intro E.
    assert (H2 : h / 100 == h * (1 # 100)) by field.
    rewrite H2 in E. apply N. nra. }
  rewrite M. reflexivity.
Qed.

(** X23: for a height that is not zero [calculateBMI] is the weight divided
    by the square of the height in metres: the result times the squared
    height in centimetres is 10000 times the weight.  For positive heights
    it does not decrease when the weight grows or the height shrinks. *)
Theorem calculateBMI_formula_and_order :
  (forall w h : Q,
      ~ h == 0 ->
      exists b, calculateBMI (Js.Fin w) (Js.Fin h) = Js.Fin b
                /\ b * (h * h) == w * 10000)
  /\ (forall w1 w2 h1 h2 : Q,
         0 <= w1 -> w1 <= w2 -> 0 < h2 -> h2 <= h1 ->
         Js.leb (calculateBMI (Js.Fin w1) (Js.Fin h1))
                (calculateBMI (Js.Fin w2) (Js.Fin h2)) = true).
Proof.
  split.
  - intros w h N. eexists. split; [apply calculateBMI_finite; exact N|].
    field. exact N.
  - intros w1 w2 h1 h2 W0 W H0 H.
    rewrite !calculateBMI_finite by lra. cbn [Js.leb]. apply Qle_bool_iff.
    assert (D : forall x : Q, x / 100 == x * (1 # 100)) by (intro x; field).
    set (m1 := h1 / 100 * (h1 / 100)). set (m2 := h2 / 100 * (h2 / 100)).
    assert (P2 : 0 < m2) by (unfold m2; rewrite D; nra).
    assert (M : m2 <= m1) by (unfold m1, m2; rewrite !D; nra).
    assert (P1 : 0 < m1) by lra.
    apply Qle_shift_div_r; [exact P1|].
    assert (T : 0 <= w2 / m2).
    { apply Qle_shift_div_l; [exact P2 | lra]. }
    assert (E : w2 / m2 * m2 == w2) by (field; lra).
    nra.
Qed.

Lemma calculateBMI_witness :
  (0 <= 30 /\ 30 <= 35 /\ 0 < 130 /\ 130 <= 140)
  /\ Js.leb (calculateBMI (Js.Fin 30) (Js.Fin 140))
            (calculateBMI (Js.Fin 35) (Js.Fin 130)) = true.
Proof.
  assert (A : 0 <= 30) by discriminate.
  assert (B : 30 <= 35) by discriminate.
  assert (C : 0 < 130) by reflexivity.
  assert (D : 130 <= 140) by discriminate.
  split; [repeat split; assumption|].
  apply (proj2 calculateBMI_formula_and_order 30 35 140 130 A B C D).
Defined.

(* ================================================================= *)
(** ** Chart scales *)

Lemma rangeOf_positive (min max : Q) : min <= max -> 0 < Chart.rangeOf min max.
Proof.
  intro L. unfold Chart.rangeOf.
  destruct (Qeq_bool (max - min) 0) eqn:E;
    [reflexivity | apply Qeq_bool_false in E].
  destruct (Qlt_le_dec 0 (max - min)) as [P|P]; [exact P|].
  exfalso. apply E. lra.
Qed.

Lemma fraction_between (n d : Q) :
  0 < d -> 0 <= n -> n < d -> 0 <= n / d /\ n / d < 1.
Proof.
  intros D N L. split.
  - apply Qle_shift_div_l; [exact D | lra].
  - apply Qlt_shift_div_r; [exact D | lra].
Qed.

Lemma fraction_increasing (n1 n2 d : Q) :
  0 < d -> n1 < n2 -> n1 / d < n2 / d.
Proof.
  intros D L. apply Qlt_shift_div_r; [exact D|].
  assert (E : n2 / d * d == n2) by (field; lra). lra.
Qed.

(** X24: for ages that span [minAge .. maxAge], the horizontal scale of the
    chart never divides by zero, draws every age of the span strictly
    between the left and the right edge of the plot, and draws a larger age
    farther to the right. *)
Theorem toSvgX_inside_plot :
  forall minAge maxAge : Q,
    minAge <= maxAge ->
    0 < Chart.maxAgePadded minAge maxAge - Chart.minAgePadded minAge maxAge
    /\ (forall age,
          minAge <= age -> age <= maxAge ->
          Chart.paddingLeft < Chart.toSvgX minAge maxAge age
          /\ Chart.toSvgX minAge maxAge age
             < Chart.width - Chart.paddingRight)
    /\ (forall age1 age2,
          age1 < age2 ->
          Chart.toSvgX minAge maxAge age1 < Chart.toSvgX minAge maxAge age2).
Proof.
  intros minAge maxAge L.
  pose proof (rangeOf_positive minAge maxAge L) as R.
  unfold Chart.toSvgX, Chart.maxAgePadded, Chart.minAgePadded,
         Chart.chartWidth, Chart.width, Chart.paddingLeft, Chart.paddingRight.
  set (r := Chart.rangeOf minAge maxAge) in *.
  set (d := maxAge + r * (5 # 100) - (minAge - r * (5 # 100))).
  assert (D : 0 < d) by (unfold d; lra).
  split; [exact D|]. split.
  - intros age A B.
    destruct (fraction_between (age - (minAge - r * (5 # 100))) d D)
      as [F0 F1]; [lra | unfold d; lra |].
    assert (F : 0 < (age - (minAge - r * (5 # 100))) / d).
    { apply Qlt_shift_div_l; [exact D | lra]. }
    split; lra.
  - intros age1 age2 A.
    pose proof (fraction_increasing (age1 - (minAge - r * (5 # 100)))
                  (age2 - (minAge - r * (5 # 100))) d D ltac:(lra)) as F.
    lra.
Qed.

Lemma toSvgX_witness :
  (0 <= 2 /\ 0 <= 1 /\ 1 <= 2)
  /\ Chart.paddingLeft < Chart.toSvgX 0 2 1
  /\ Chart.toSvgX 0 2 1 < Chart.width - Chart.paddingRight.
Proof.
  assert (L : 0 <= 2) by discriminate.
  assert (A : 0 <= 1) by discriminate.
  assert (B : 1 <= 2) by discriminate.
  split; [repeat split; assumption|].
  apply (proj1 (proj2 (toSvgX_inside_plot 0 2 L)) 1 A B).
Defined.

(** X25: for values that span [minValue .. maxValue] and are not negative,
    the vertical scale of the chart never divides by zero, draws every value
    of the span below the top edge of the plot and not below the bottom
    axis, and draws a larger value higher. *)
Theorem toSvgY_inside_plot :
  forall minValue maxValue : Q,
    0 <= minValue -> minValue <= maxValue ->
    0 < Chart.maxValuePadded minValue maxValue
        - Chart.minValuePadded minValue maxValue
    /\ (forall value,
          minValue <= value -> value <= maxValue ->
          Chart.paddingTop < Chart.toSvgY minValue maxValue value
          /\ Chart.toSvgY minValue maxValue value
             <= Chart.height - Chart.paddingBottom)
    /\ (forall value1 value2,
          value1 < value2 ->
          Chart.toSvgY minValue maxValue value2
          < Chart.toSvgY minValue maxValue value1).
Proof.
  intros minValue maxValue P L.
  pose proof (rangeOf_positive minValue maxValue L) as R.
  unfold Chart.toSvgY, Chart.maxValuePadded, Chart.minValuePadded,
         Chart.chartHeight, Chart.height, Chart.paddingTop,
         Chart.paddingBottom.
  set (r := Chart.rangeOf minValue maxValue) in *. cbv zeta.
  set (low := if Qltb 0 (minValue - r * (1 # 10))
              then minValue - r * (1 # 10) else 0).
  assert (B : 0 <= low /\ low <= minValue).
  { unfold low. q_cases; split; lra. }
  set (d := maxValue + r * (1 # 10) - low).
  assert (D : 0 < d) by (unfold d; lra).
  split; [exact D|]. split.
  - intros value A C.
    destruct (fraction_between (value - low) d D) as [F0 F1];
      [lra | unfold d; lra |].
    split; lra.
  - intros value1 value2 A.
    pose proof (fraction_increasing (value1 - low) (value2 - low) d D
                  ltac:(lra)) as F.
    lra.
Qed.

Lemma toSvgY_witness :
  (0 <= 3 /\ 3 <= 20 /\ 3 <= 10 /\ 10 <= 20)
  /\ Chart.paddingTop < Chart.toSvgY 3 20 10
  /\ Chart.toSvgY 3 20 10 <= Chart.height - Chart.paddingBottom.
Proof.
  assert (P : 0 <= 3) by discriminate.
  assert (L : 3 <= 20) by discriminate.
  assert (A : 3 <= 10) by discriminate.
  assert (B : 10 <= 20) by discriminate.
  split; [repeat split; assumption|].
  apply (proj1 (proj2 (toSvgY_inside_plot 3 20 P L)) 10 A B).
Defined.

(* ================================================================= *)
(** ** Instances on the sample data *)

Lemma getUniqueAges_witness :
  In boy5 sampleData
  /\ exists o,
       In o (getUniqueAges sampleNumberToString (Some sampleData))
       /\ AgeOption.value o = ageKey sampleNumberToString boy5.
Proof.
  assert (I : In boy5 sampleData) by (simpl; auto).
  split; [exact I|].
  apply (proj1 (proj2 (getUniqueAges_one_option_per_key
                         sampleNumberToString sampleData)) boy5 I).
Defined.

Example getUniqueAges_sample :
  map AgeOption.value
      (getUniqueAges sampleNumberToString
                     (Some [boy8; boy4; girl6; boy5; boy4]))
  = [ "4-MONTH"; "5-MONTH"; "6-MONTH"; "8-MONTH" ]%string
  /\ map AgeOption.label
         (getUniqueAges sampleNumberToString (Some [boy4]))
     = [ "4 months"%string ]
  /\ getUniqueAges sampleNumberToString None = [].
Proof. repeat split. Qed.


Example getZScoreCurves_throws_without_partition :
  getZScoreCurves
    (Some (mkZScoreData None None None
                        (Some (mkAgeRange 0 23 "MONTH")) None None))
    "BOY" 6 "MONTH" "weight"
  = Throw Js.TypeError.
Proof. reflexivity. Qed.

(* ================================================================= *)
(** ** A validated input and its closeness *)

Lemma validateInput_empty_parts gender weight height age :
  validateInput gender weight height age = [] ->
  weightErrors weight = []
  /\ heightErrors (Js.defaultNull height) = [].
Proof.
  unfold validateInput. cbv zeta. intro E.
  apply app_eq_nil in E. destruct E as [E H].
  apply app_eq_nil in E. destruct E as [E _].
  apply app_eq_nil in E. destruct E as [_ W].
  split; assumption.
Qed.

(** X26: an input that [validateInput] accepts gets a closeness that is a
    whole number from 0 to 100 from [formatResult], for every pair of
    matched records of which the age-matched one has a weight and a height
    that are not zero; the result is returned, nothing is thrown. *)
Theorem validated_input_has_percent_closeness :
  forall (numberToString : Q -> string) gender (weight : Js.Number) height
         ageText age (ageRecord weightRecord : Rec.t),
    validateInput gender (Js.Num weight) height ageText = [] ->
    ~ Rec.weight ageRecord == 0 ->
    ~ Rec.height ageRecord == 0 ->
    exists result (n : Z),
      formatResult numberToString
                   (Patient.mk (match gender with
                                | Some g => g
                                | None => ""%string
                                end) weight height age)
                   (Some ageRecord) (Some weightRecord)
      = Return result
      /\ Result.closeness result = Js.Fin (inject_Z n)
      /\ (0 <= n <= 100)%Z.
Proof.
  intros nts gender weight height ageText age ageRecord weightRecord V Nw Nh.
  destruct (validateInput_empty_parts _ _ _ _ V) as [W H].
  destruct (weightErrors_cases (Js.Num weight)) as [[[q [Eq _]] _]|[_ [E|E]]];
    try congruence.
  inversion Eq. subst weight.
  assert (S : Js.orNull height = Js.Null
              \/ (exists h, Js.orNull height = Js.Num (Js.Fin h))).
  { destruct (heightErrors_cases height) as [[Vh _]|[_ [E|E]]];
      try congruence.
    destruct Vh as [E|[E|[E|[h [E [L _]]]]]]; subst height;
      try (left; reflexivity).
    right. exists h. unfold Js.orNull. cbn [Js.truthyInput Js.truthy].
    assert (Z : Qeq_bool h 0 = false) by (apply Qeq_bool_false; lra).
    rewrite Z. reflexivity. }
  unfold formatResult. cbn [Patient.weight Patient.height].
  destruct (calculateCloseness_defined q (Js.orNull height) ageRecord Nw)
    as [n [C B]].
  { destruct S as [S|S]; [left; exact S | right; split; [exact S | exact Nh]]. }
  eexists. exists n. split; [reflexivity|]. split; [exact C | exact B].
Qed.

Lemma validated_input_witness :
  (validateInput (Some "BOY"%string) (Js.Num (Js.Fin 8)) (Js.Num (Js.Fin 65))
                 (Some "8-MONTH"%string) = []
   /\ ~ Rec.weight boy8 == 0 /\ ~ Rec.height boy8 == 0)
  /\ exists result (n : Z),
       formatResult sampleNumberToString
                    (Patient.mk "BOY" (Js.Fin 8) (Js.Num (Js.Fin 65))
                                (Some (mkAgeInput 8 "MONTH")))
                    (Some boy8) (Some boy5)
       = Return result
       /\ Result.closeness result = Js.Fin (inject_Z n)
       /\ (0 <= n <= 100)%Z.
Proof.
  assert (Nw : ~ Rec.weight boy8 == 0) by (intro E; discriminate E).
  assert (Nh : ~ Rec.height boy8 == 0) by (intro E; discriminate E).
  split; [split; [reflexivity | split; [exact Nw | exact Nh]]|].
  apply (validated_input_has_percent_closeness
           sampleNumberToString (Some "BOY"%string) (Js.Fin 8)
           (Js.Num (Js.Fin 65)) (Some "8-MONTH"%string)
           (Some (mkAgeInput 8 "MONTH")) boy8 boy5 eq_refl Nw Nh).
Defined.
